(** * Linux interface dump of the agent's [linuxcalls] package

    A shallow embedding of [dump_link_linuxcalls.go]
    (package [linuxcalls] of the Linux interface plugin):

    - [DumpInterfaces], the two-phase inventory of Linux interfaces;
    - [DumpInterfaceStatistics], the statistics variant;
    - [dumpInterfaceData], the per-interface probe inside a namespace;
    - [transformAndStore], the merge of kernel data into the details.

    The Go code is written against three interfaces (the netlink wrapper,
    the namespace handler and the interface index).  They are embedded as
    records of operations over an abstract state of the OS thread, and the
    Go heap cells that are shared between the interface index and the
    returned details are kept in an explicit store. *)

From Stdlib Require Import List String ZArith Bool Arith Lia.
Import ListNotations.

Set Implicit Arguments.
Open Scope string_scope.

(* ================================================================= *)
(** ** Data model *)

(** Go's [error] values are carried by their message. *)
Definition error := string.

(** [nsplugin.Namespace]: the generic namespace reference.  The probe only
    reads [Name] (for its error text); the zero value [Namespace{}] denotes
    the default namespace. *)
Record Namespace := mkNamespace {
  ns_Type : Z;
  ns_Pid : Z;
  ns_Microservice : string;
  ns_Name : string;
  ns_Filepath : string
}.

(** [&nsplugin.Namespace{}] *)
Definition Namespace_zero : Namespace := mkNamespace 0 0 "" "" "".

(** [interfaces.LinuxInterfaces_Interface_Namespace]: the namespace as stored
    in the northbound model.  The dump code only tests it against [nil]. *)
Record IfNamespace := mkIfNamespace {
  ifns_Type : Z;
  ifns_Pid : Z;
  ifns_Microservice : string;
  ifns_Name : string;
  ifns_Filepath : string
}.

(** [interfaces.LinuxInterfaces_Interface]: the northbound configuration of
    one interface.  The dump code reads [Namespace] and writes [IpAddresses];
    the remaining fields are only carried along. *)
Record LinuxInterfaces_Interface := mkInterface {
  Name : string;
  Description : string;
  Type_ : Z;
  Enabled : bool;
  PhysAddress : string;
  Namespace_ : option IfNamespace;
  Mtu : Z;
  IpAddresses : list string;
  HostIfName : string
}.

(** The Go zero value of the message. *)
Definition Interface_zero : LinuxInterfaces_Interface :=
  mkInterface "" "" 0 false "" None 0 [] "".

(** Assignment [c.IpAddresses = ips]. *)
Definition set_IpAddresses (c : LinuxInterfaces_Interface) (ips : list string)
  : LinuxInterfaces_Interface :=
  mkInterface (Name c) (Description c) (Type_ c) (Enabled c) (PhysAddress c)
              (Namespace_ c) (Mtu c) ips (HostIfName c).

(** A non-nil [*interfaces.LinuxInterfaces_Interface] is an address of the
    store of configuration objects; a pointer that may be [nil] is an
    [option ptr].  The store is total, as every Go pointer points to an
    object. *)
Definition ptr := nat.

(** [LinuxInterfaceMeta] *)
Record LinuxInterfaceMeta := mkMeta {
  Index : Z;
  meta_Name : string;
  Alias : string;
  OperState : string;
  Flags : string;
  MacAddr : string;
  meta_Mtu : Z;
  meta_Type : string;
  NetNsID : Z;
  NumTxQueues : Z;
  TxQueueLen : Z;
  NumRxQueues : Z
}.

(** Assignment [linuxMeta.MacAddr = s]. *)
Definition set_MacAddr (m : LinuxInterfaceMeta) (s : string) : LinuxInterfaceMeta :=
  mkMeta (Index m) (meta_Name m) (Alias m) (OperState m) (Flags m) s
         (meta_Mtu m) (meta_Type m) (NetNsID m) (NumTxQueues m) (TxQueueLen m)
         (NumRxQueues m).

(** [LinuxInterfaceDetails]: both members are pointers, [None] is [nil].
    [Meta] is always a freshly built object, so it is kept by value;
    [Interface] may alias an object of the interface index, so it is kept
    as an address. *)
Record LinuxInterfaceDetails := mkDetails {
  Interface : option ptr;
  Meta : option LinuxInterfaceMeta
}.

(** [&LinuxInterfaceDetails{}] *)
Definition Details_zero : LinuxInterfaceDetails := mkDetails None None.

(** [ifaceidx.IndexedLinuxInterface]: the metadata the index keeps per name. *)
Record IndexedLinuxInterface := mkIndexed {
  idx_Index : Z;
  Data : option ptr
}.

(** The [nsplugin.NamespaceMgmtCtx] token, created once per dump. *)
Inductive NamespaceMgmtCtx : Type := NewNamespaceMgmtCtx.

(** What the netlink library provides besides the calls: the types the dump
    code only passes through, and the [String()] methods it renders them
    with. *)
Class NetlinkTypes := {
  Addr : Type;                               (* netlink.Addr *)
  LinkStatistics : Type;                     (* netlink.LinkStatistics *)
  Addr_String : Addr -> string;              (* Addr.String() *)
  OperState_String : Z -> string;            (* LinkOperState.String() *)
  Flags_String : Z -> string;                (* net.Flags.String() *)
  HardwareAddr_String : list Z -> string     (* net.HardwareAddr.String() *)
}.

Section Dump.

Context {NT : NetlinkTypes}.

(** [netlink.LinkAttrs], the fields the dump reads.  [HardwareAddr] is a
    byte slice and [Statistics] a pointer; both may be [nil]. *)
Record LinkAttrs := mkLinkAttrs {
  la_Index : Z;
  la_MTU : Z;
  la_TxQLen : Z;
  la_Name : string;
  la_HardwareAddr : option (list Z);
  la_Flags : Z;
  la_EncapType : string;
  la_NetNsID : Z;
  la_NumTxQueues : Z;
  la_NumRxQueues : Z;
  la_Alias : string;
  la_OperState : Z;
  la_Statistics : option LinkStatistics
}.

(** A value of the interface type [netlink.Link]: [None] is the nil
    interface, and [Attrs()] of a link may itself be [nil]. *)
Record LinkObj := mkLink { Attrs : option LinkAttrs }.
Definition Link := option LinkObj.

(** [LinuxInterfaceStatistics] *)
Record LinuxInterfaceStatistics := mkStats {
  stat_Name : string;
  stat_Index : Z;
  Statistics : option LinkStatistics
}.

(** The messages handed to the logger, one constructor per call site. *)
Inductive LogEvent :=
| Warn_UnableToGetLinkDataOf (dNsLink : Link)
| Error_FailedToGetInterfaceData (ifName : string) (err : error)
| Warn_ExpectedInterfaceNotFound (ifName : string)
| Warn_ExpectedInterfaceMetadataMissing (ifName : string)
| Warn_UnableToGetLinkData (ifName : string).

(* ================================================================= *)
(** ** The handler and its collaborators *)

(** The state of the OS thread and of the kernel as the calls see it. *)
Variable World : Type.

(** The netlink wrapper methods of the handler.  They are reads: their
    answer depends on the namespace the thread is in, which is part of
    [World]. *)
Record NetlinkAPI := {
  GetLinkList : World -> list Link * option error;
  GetLinkByName : string -> World -> Link * option error;
  GetAddressList : string -> World -> list Addr * option error
}.

(** [nsplugin.NamespaceAPI].  [SwitchNamespace] moves the thread and hands
    back the revert closure together with the error; the closure is a
    callable value on every path. *)
Record NamespaceAPI := {
  SwitchNamespace :
    Namespace -> NamespaceMgmtCtx -> World -> (World -> World) * option error * World;
  IfNsToGeneric : option IfNamespace -> Namespace
}.

(** [ifaceidx.LinuxIfIndex]: [LookupIdx] gives index, metadata (may be
    [nil]) and the found flag; [ListNames] is [GetMapping().ListNames()]. *)
Record LinuxIfIndex := {
  LookupIdx : string -> Z * option IndexedLinuxInterface * bool;
  ListNames : list string
}.

(** [NetLinkHandler] *)
Record NetLinkHandler := {
  netlink : NetlinkAPI;
  nsHandler : NamespaceAPI;
  ifIndexes : LinuxIfIndex
}.

(* ================================================================= *)
(** ** Program state and the monad of the embedding *)

(** [store] holds the configuration objects reachable through pointers,
    [next] is the first address not yet handed out by an allocation. *)
Record State := mkState {
  world : World;
  store : ptr -> LinuxInterfaces_Interface;
  next : ptr;
  log : list LogEvent
}.

(** A call either returns or panics (nil dereference); the state reached
    at the panic is kept, since what was written before it stays written. *)
Inductive Result (A : Type) : Type :=
| Done (a : A) (s : State)
| Panic (s : State).
Arguments Panic {A}.

(** The state a call ends in. *)
Definition final {A} (r : Result A) : State :=
  match r with
  | Done _ s => s
  | Panic s => s
  end.

Definition M (A : Type) : Type := State -> Result A.

Definition ret {A} (a : A) : M A := fun s => Done a s.

Definition bind {A B} (m : M A) (k : A -> M B) : M B :=
  fun s => match m s with
           | Done a s' => k a s'
           | Panic s' => Panic s'
           end.

Definition panic {A} : M A := fun s => Panic s.

Notation "x <- m ;; k" := (bind m (fun x => k))
  (at level 100, m at next level, right associativity).
Notation "' p <- m ;; k" := (bind m (fun x => let p := x in k))
  (at level 100, p pattern, m at next level, right associativity).
Notation "m ;;; k" := (bind m (fun _ => k))
  (at level 100, right associativity).

(** Reading the kernel through the current world. *)
Definition observe {A} (f : World -> A) : M A := fun s => Done (f (world s)) s.

(** [h.log.Warnf] / [h.log.Errorf] *)
Definition logf (e : LogEvent) : M unit :=
  fun s => Done tt (mkState (world s) (store s) (next s) (log s ++ [e])%list).

(** [&interfaces.LinuxInterfaces_Interface{...}]: a new object. *)
Definition alloc (c : LinuxInterfaces_Interface) : M ptr :=
  fun s => Done (next s)
                (mkState (world s)
                         (fun q => if Nat.eqb q (next s) then c else store s q)
                         (S (next s)) (log s)).

(** [*p] *)
Definition load (p : ptr) : M LinuxInterfaces_Interface :=
  fun s => Done (store s p) s.

(** [p.IpAddresses = ips] *)
Definition store_IpAddresses (p : ptr) (ips : list string) : M unit :=
  fun s => Done tt
                (mkState (world s)
                         (fun q => if Nat.eqb q p
                                   then set_IpAddresses (store s p) ips
                                   else store s q)
                         (next s) (log s)).

(** [defer revert()] around the rest of a function body: the closure runs
    when the body returns, and also when it panics. *)
Definition defer {A} (revert : World -> World) (body : M A) : M A :=
  fun s => match body s with
           | Done r s' =>
               Done r (mkState (revert (world s')) (store s') (next s') (log s'))
           | Panic s' =>
               Panic (mkState (revert (world s')) (store s') (next s') (log s'))
           end.

(** [for _, x := range xs { ... }] with the slice under construction as the
    loop-carried value; a [continue] returns it unchanged. *)
Fixpoint forRange {A B} (body : B -> A -> M B) (xs : list A) (acc : B) : M B :=
  match xs with
  | [] => ret acc
  | x :: rest => acc' <- body acc x ;; forRange body rest acc'
  end.

(* ================================================================= *)
(** ** The code *)

Variable h : NetLinkHandler.

(** [h.nsHandler.SwitchNamespace(ns, ctx)] *)
Definition switchNamespace (ns : Namespace) (ctx : NamespaceMgmtCtx)
  : M ((World -> World) * option error) :=
  fun s => let '(revert, err, w) := SwitchNamespace (nsHandler h) ns ctx (world s) in
           Done (revert, err) (mkState w (store s) (next s) (log s)).

(** [dumpInterfaceData]: reads interface data and IP addresses from the
    provided namespace. *)
Definition dumpInterfaceData (ifName : string) (ns : Namespace) (ctx : NamespaceMgmtCtx)
  : M (Link * list Addr * option error) :=
  '(revert, err) <- switchNamespace ns ctx ;;
  defer revert
    match err with
    | Some e =>
        ret (None, [], Some ("failed to switch to namespace " ++ ns_Name ns ++ ": " ++ e))
    | None =>
        '(link, err) <- observe (GetLinkByName (netlink h) ifName) ;;
        match err with
        | Some e =>
            ret (None, [], Some ("failed to get interface " ++ ifName
                                 ++ " from namespace " ++ ns_Name ns ++ ": " ++ e))
        | None =>
            '(linkAddrs, err) <- observe (GetAddressList (netlink h) ifName) ;;
            match err with
            | Some e =>
                ret (None, [], Some ("failed to get interface " ++ ifName
                                     ++ " addresses: " ++ e))
            | None => ret (link, linkAddrs, None)
            end
        end
    end.

(** [transformAndStore]: transforms the link to the interface details and
    stores the IP addresses to the modelled data.  The details are passed by
    pointer in Go; the updated details are the result here.  A [nil] link or
    [nil] attributes are dereferenced without a test. *)
Definition transformAndStore (link : Link) (addr : list Addr)
           (ifDetails : LinuxInterfaceDetails) : M LinuxInterfaceDetails :=
  (* Set IP addresses to model-based data *)
  let ipAddrs := map Addr_String addr in
  iface <- match Interface ifDetails with
           | None => alloc (set_IpAddresses Interface_zero ipAddrs)
           | Some p => store_IpAddresses p ipAddrs ;;; ret p
           end ;;
  (* Metadata fields *)
  linkAttrs <- match link with
               | None => panic
               | Some l => match Attrs l with
                           | None => panic
                           | Some a => ret a
                           end
               end ;;
  let linuxMeta :=
      mkMeta (la_Index linkAttrs) (la_Name linkAttrs) (la_Alias linkAttrs)
             (OperState_String (la_OperState linkAttrs))
             (Flags_String (la_Flags linkAttrs))
             ""
             (la_MTU linkAttrs) (la_EncapType linkAttrs) (la_NetNsID linkAttrs)
             (la_NumTxQueues linkAttrs) (la_TxQLen linkAttrs)
             (la_NumRxQueues linkAttrs) in
  let linuxMeta :=
      match la_HardwareAddr linkAttrs with
      | Some hw => set_MacAddr linuxMeta (HardwareAddr_String hw)
      | None => linuxMeta
      end in
  ret (mkDetails (Some iface) (Some linuxMeta)).

(** Body of the first loop of [DumpInterfaces]: one link of the default
    namespace. *)
Definition dumpDefaultNsLink (ctx : NamespaceMgmtCtx)
           (ifs : list LinuxInterfaceDetails) (dNsLink : Link)
  : M (list LinuxInterfaceDetails) :=
  let ifDetails := Details_zero in
  match dNsLink with
  | None => logf (Warn_UnableToGetLinkDataOf dNsLink) ;;; ret ifs
  | Some l =>
      match Attrs l with
      | None => logf (Warn_UnableToGetLinkDataOf dNsLink) ;;; ret ifs
      | Some attrs =>
          let ifName := la_Name attrs in
          '(link, linkAddresses, err) <- dumpInterfaceData ifName Namespace_zero ctx ;;
          match err with
          | Some e =>
              (* Do not return error *)
              logf (Error_FailedToGetInterfaceData ifName e) ;;; ret ifs
          | None =>
              (* If the interface exists in mapping, copy the modelled data *)
              ifDetails <-
                (let '(_, meta, found) := LookupIdx (ifIndexes h) ifName in
                 if found
                 then match meta with
                      | None => panic
                      | Some m => ret (mkDetails (Data m) (Meta ifDetails))
                      end
                 else ret ifDetails) ;;
              ifDetails <- transformAndStore link linkAddresses ifDetails ;;
              ret (ifs ++ [ifDetails])%list
          end
      end
  end.

(** Body of the second loop of [DumpInterfaces]: one name known to the
    interface index. *)
Definition dumpKnownInterface (ctx : NamespaceMgmtCtx)
           (ifs : list LinuxInterfaceDetails) (ifName : string)
  : M (list LinuxInterfaceDetails) :=
  let ifDetails := Details_zero in
  let '(_, meta, found) := LookupIdx (ifIndexes h) ifName in
  if negb found
  then logf (Warn_ExpectedInterfaceNotFound ifName) ;;; ret ifs
  else
    match meta with
    | None => logf (Warn_ExpectedInterfaceMetadataMissing ifName) ;;; ret ifs
    | Some m =>
        match Data m with
        | None => logf (Warn_ExpectedInterfaceMetadataMissing ifName) ;;; ret ifs
        | Some p =>
            data <- load p ;;
            (* Skip interfaces in default NS (already processed) *)
            match Namespace_ data with
            | None => ret ifs
            | Some _ =>
                (* Copy base configuration from mapping metadata *)
                let ifDetails := mkDetails (Data m) (Meta ifDetails) in
                (* Check the interface namespace *)
                '(link, linkAddresses, err) <-
                  dumpInterfaceData ifName
                    (IfNsToGeneric (nsHandler h) (Namespace_ data)) ctx ;;
                match err with
                | Some e =>
                    (* Do not return error, read what is possible *)
                    logf (Error_FailedToGetInterfaceData ifName e) ;;; ret ifs
                | None =>
                    match link with
                    | None => logf (Warn_UnableToGetLinkData ifName) ;;; ret ifs
                    | Some l =>
                        match Attrs l with
                        | None => logf (Warn_UnableToGetLinkData ifName) ;;; ret ifs
                        | Some _ =>
                            ifDetails <- transformAndStore link linkAddresses ifDetails ;;
                            ret (ifs ++ [ifDetails])%list
                        end
                    end
                end
            end
        end
    end.

(** [DumpInterfaces] *)
Definition DumpInterfaces : M (list LinuxInterfaceDetails * option error) :=
  let ifs := [] in
  let ctx := NewNamespaceMgmtCtx in
  (* Dump all interfaces from the default namespace *)
  '(dNsLinks, err) <- observe (GetLinkList (netlink h)) ;;
  match err with
  | Some e =>
      ret ([], Some ("failed to dump linux interfaces from default namespace: " ++ e))
  | None =>
      ifs <- forRange (dumpDefaultNsLink ctx) dNsLinks ifs ;;
      (* Add all known interfaces in non-default namespace *)
      ifs <- forRange (dumpKnownInterface ctx) (ListNames (ifIndexes h)) ifs ;;
      ret (ifs, None)
  end.

(** Body of the loop of [DumpInterfaceStatistics]. *)
Definition dumpKnownStatistics (ctx : NamespaceMgmtCtx)
           (ifs : list LinuxInterfaceStatistics) (ifName : string)
  : M (list LinuxInterfaceStatistics) :=
  let '(_, meta, found) := LookupIdx (ifIndexes h) ifName in
  if negb found
  then logf (Warn_ExpectedInterfaceNotFound ifName) ;;; ret ifs
  else
    match meta with
    | None => logf (Warn_ExpectedInterfaceMetadataMissing ifName) ;;; ret ifs
    | Some m =>
        match Data m with
        | None => logf (Warn_ExpectedInterfaceMetadataMissing ifName) ;;; ret ifs
        | Some p =>
            data <- load p ;;
            (* Check the interface namespace *)
            '(link, _, err) <-
              dumpInterfaceData ifName
                (IfNsToGeneric (nsHandler h) (Namespace_ data)) ctx ;;
            match err with
            | Some e =>
                (* Do not return error, read what is possible *)
                logf (Error_FailedToGetInterfaceData ifName e) ;;; ret ifs
            | None =>
                match link with
                | None => logf (Warn_UnableToGetLinkData ifName) ;;; ret ifs
                | Some l =>
                    match Attrs l with
                    | None => logf (Warn_UnableToGetLinkData ifName) ;;; ret ifs
                    | Some linkAttrs =>
                        (* Fill data *)
                        let linuxStats :=
                            mkStats (la_Name linkAttrs) (la_Index linkAttrs)
                                    (la_Statistics linkAttrs) in
                        ret (ifs ++ [linuxStats])%list
                    end
                end
            end
        end
    end.

(** [DumpInterfaceStatistics] *)
Definition DumpInterfaceStatistics : M (list LinuxInterfaceStatistics * option error) :=
  let ifs := [] in
  let ctx := NewNamespaceMgmtCtx in
  (* Iterate over all known interfaces *)
  ifs <- forRange (dumpKnownStatistics ctx) (ListNames (ifIndexes h)) ifs ;;
  ret (ifs, None).

End Dump.

Arguments Panic {NT World A} s.

(* ================================================================= *)
(** ** Observations on inventories *)

Section Observations.

Context {NT : NetlinkTypes} {World : Type}.

(** The name under which an element of the inventory is reported. *)
Definition detail_name (d : LinuxInterfaceDetails) : string :=
  match Meta d with
  | Some m => meta_Name m
  | None => ""
  end.

(** The names of the links of a listing that carry attributes, in order:
    the names the first loop probes. *)
Fixpoint link_names (links : list Link) : list string :=
  match links with
  | [] => []
  | Some l :: rest =>
      match Attrs l with
      | Some a => la_Name a :: link_names rest
      | None => link_names rest
      end
  | None :: rest => link_names rest
  end.

(** [n] is known to the index with a configuration whose namespace is set,
    in the store [st]: the entries the second loop probes. *)
Definition nondefault_registered (h : NetLinkHandler World)
           (st : ptr -> LinuxInterfaces_Interface) (n : string) : Prop :=
  exists i m p,
    LookupIdx (ifIndexes h) n = (i, Some m, true) /\ Data m = Some p /\
    Namespace_ (st p) <> None.

(** A link resolved by name carries the name it was asked for. *)
Definition resolves_by_name (h : NetLinkHandler World) : Prop :=
  forall n w l a,
    GetLinkByName (netlink h) n w = (Some l, None) ->
    Attrs l = Some a -> la_Name a = n.

(** The contract of the namespace switch with respect to an observation
    [obs] of the thread (its current namespace): running the returned
    revert closure in the world the switch left gives back the observation
    of the world before the switch. *)
Definition reverts_to_prior {A} (obs : World -> A) (api : NamespaceAPI World) : Prop :=
  forall ns ctx w,
    let '(revert, _, w1) := SwitchNamespace api ns ctx w in
    obs (revert w1) = obs w.

(** A computation that ends with the observation it started with. *)
Definition keeps {A B} (obs : World -> A) (m : M World B) : Prop :=
  forall s b s', m s = Done b s' -> obs (world s') = obs (world s).

(** The state a probe leaves: only the thread has moved. *)
Definition after_probe (s : State World) (w : World) : State World :=
  mkState w (store s) (next s) (log s).

(** The world a probe of namespace [ns] ends in when started in [w]: the
    one the revert closure produces from the world the switch left. *)
Definition reverted (h : NetLinkHandler World) (ns : Namespace)
           (ctx : NamespaceMgmtCtx) (w : World) : World :=
  let '(revert, _, w1) := SwitchNamespace (nsHandler h) ns ctx w in revert w1.

(** The world the reads of a probe of [ns] run in. *)
Definition entered (h : NetLinkHandler World) (ns : Namespace)
           (ctx : NamespaceMgmtCtx) (w : World) : World :=
  let '(_, _, w1) := SwitchNamespace (nsHandler h) ns ctx w in w1.

(** The metadata is the copy of the link attributes, with the textual
    forms of state, flags and hardware address. *)
Definition meta_reflects (a : LinkAttrs) (m : LinuxInterfaceMeta) : Prop :=
  Index m = la_Index a /\ meta_Name m = la_Name a /\ Alias m = la_Alias a /\
  OperState m = OperState_String (la_OperState a) /\
  Flags m = Flags_String (la_Flags a) /\
  meta_Mtu m = la_MTU a /\ meta_Type m = la_EncapType a /\
  NetNsID m = la_NetNsID a /\ NumTxQueues m = la_NumTxQueues a /\
  TxQueueLen m = la_TxQLen a /\ NumRxQueues m = la_NumRxQueues a /\
  MacAddr m = match la_HardwareAddr a with
              | Some hw => HardwareAddr_String hw
              | None => ""
              end.

(** [ds] are elements picked from [xs] in order, each related by [Q] to
    the element it was picked for: what a loop whose body appends at most
    one element per iteration adds to its slice. *)
Inductive picked {A D} (Q : A -> D -> Prop) : list A -> list D -> Prop :=
| picked_nil : picked Q [] []
| picked_skip x xs ds : picked Q xs ds -> picked Q (x :: xs) ds
| picked_take x d xs ds : Q x d -> picked Q xs ds -> picked Q (x :: xs) (d :: ds).

(** [p] is the configuration object the index holds for some name. *)
Definition held_by_index (h : NetLinkHandler World) (p : ptr) : Prop :=
  exists n i mt,
    LookupIdx (ifIndexes h) n = (i, Some mt, true) /\ Data mt = Some p.

(** [addrs] is an answer of the kernel to an address listing. *)
Definition kernel_read (h : NetLinkHandler World) (addrs : list Addr) : Prop :=
  exists n w, GetAddressList (netlink h) n w = (addrs, None).

(** A configuration that holds a rendered kernel-read address list and
    nothing else. *)
Definition synthesized (h : NetLinkHandler World) (c : LinuxInterfaces_Interface) : Prop :=
  exists addrs,
    kernel_read h addrs /\
    c = set_IpAddresses Interface_zero (map Addr_String addrs).

(** The metadata [m] is the copy of the attributes of a link that the
    kernel answered to a resolution by name. *)
Definition read_from_kernel (h : NetLinkHandler World) (m : LinuxInterfaceMeta) : Prop :=
  exists n w lk la,
    GetLinkByName (netlink h) n w = (Some lk, None) /\
    Attrs lk = Some la /\ meta_reflects la m.

(** What holds of slice and state all along a dump started in [s0]: the
    objects allocated since the start hold a rendered kernel read and
    nothing else, and every element of the slice has metadata read from
    the kernel and points either to an object of the index or to an object
    allocated since. *)
Definition populated (h : NetLinkHandler World) (s0 : State World)
           (acc : list LinuxInterfaceDetails) (s : State World) : Prop :=
  next s0 <= next s /\
  (forall p, next s0 <= p < next s -> synthesized h (store s p)) /\
  Forall (fun d => exists p m,
              Interface d = Some p /\ Meta d = Some m /\ read_from_kernel h m /\
              (held_by_index h p \/ next s0 <= p < next s)) acc.

(** The namespace recorded in an object is the one recorded at the start
    of the dump, unless it is none. *)
Definition namespaces_kept (st0 : ptr -> LinuxInterfaces_Interface)
           (s : State World) : Prop :=
  forall p, Namespace_ (store s p) = None \/
            Namespace_ (store s p) = Namespace_ (st0 p).

(** The per-interface failures of the statistics loop for the name [n] in
    state [t]: the name is not found, it has no metadata or no data, its
    probe answers an error, or the probe answers no link or a link without
    attributes. *)
Definition statistics_failure (h : NetLinkHandler World) (ctx : NamespaceMgmtCtx)
           (n : string) (t : State World) : Prop :=
  snd (LookupIdx (ifIndexes h) n) = false
  \/ (exists i, LookupIdx (ifIndexes h) n = (i, None, true))
  \/ (exists i m, LookupIdx (ifIndexes h) n = (i, Some m, true) /\ Data m = None)
  \/ (exists i m p link addrs err t1,
         LookupIdx (ifIndexes h) n = (i, Some m, true) /\ Data m = Some p /\
         dumpInterfaceData h n
           (IfNsToGeneric (nsHandler h) (Namespace_ (store t p))) ctx t
         = Done (link, addrs, err) t1 /\
         (err <> None \/ link = None \/ exists l, link = Some l /\ Attrs l = None)).

(** The index never answers that a name is found with nil metadata. *)
Definition index_has_metadata (h : NetLinkHandler World) : Prop :=
  forall n i, LookupIdx (ifIndexes h) n <> (i, None, true).

(** A resolution by name that reports no error answers a link that has
    attributes. *)
Definition resolves_links (h : NetLinkHandler World) : Prop :=
  forall n w l,
    GetLinkByName (netlink h) n w = (l, None) ->
    exists lk a, l = Some lk /\ Attrs lk = Some a.

(** The error the namespace switch answers for [ns] in the world [w]. *)
Definition switch_error (h : NetLinkHandler World) (ns : Namespace)
           (ctx : NamespaceMgmtCtx) (w : World) : option error :=
  let '(_, err, _) := SwitchNamespace (nsHandler h) ns ctx w in err.

(** A probe of [n] in [ns], started in [w], meets no error and reads the
    link [lk] and the addresses [addrs]. *)
Definition probe_ok (h : NetLinkHandler World) (n : string) (ns : Namespace)
           (ctx : NamespaceMgmtCtx) (w : World) (lk : Link) (addrs : list Addr) : Prop :=
  switch_error h ns ctx w = None /\
  GetLinkByName (netlink h) n (entered h ns ctx w) = (lk, None) /\
  GetAddressList (netlink h) n (entered h ns ctx w) = (addrs, None).

(** The test of the second loop of the inventory for the silent skip: the
    name is found with data whose namespace is nil in the store [st]. *)
Definition default_entry (h : NetLinkHandler World)
           (st : ptr -> LinuxInterfaces_Interface) (n : string) : bool :=
  match LookupIdx (ifIndexes h) n with
  | (_, Some m, true) =>
      match Data m with
      | Some p => match Namespace_ (st p) with
                  | None => true
                  | Some _ => false
                  end
      | None => false
      end
  | _ => false
  end.

(** The objects the index points to exist in the state [s]. *)
Definition index_allocated (h : NetLinkHandler World) (s : State World) : Prop :=
  forall p, held_by_index h p -> p < next s.

(** The statistics entry [st] is the copy of name, index and counters of
    the attributes of a link the kernel resolved for the name [n], which
    the index knows with data. *)
Definition statistics_entry_of (h : NetLinkHandler World) (n : string)
           (st : LinuxInterfaceStatistics) : Prop :=
  exists i m p lk la w,
    LookupIdx (ifIndexes h) n = (i, Some m, true) /\ Data m = Some p /\
    GetLinkByName (netlink h) n w = (Some lk, None) /\ Attrs lk = Some la /\
    st = mkStats (la_Name la) (la_Index la) (la_Statistics la).

(** Every field of a configuration except the address list. *)
Definition same_but_IpAddresses (c c' : LinuxInterfaces_Interface) : Prop :=
  Name c' = Name c /\ Description c' = Description c /\ Type_ c' = Type_ c /\
  Enabled c' = Enabled c /\ PhysAddress c' = PhysAddress c /\
  Namespace_ c' = Namespace_ c /\ Mtu c' = Mtu c /\ HostIfName c' = HostIfName c.

(** What a dump started in [s0] keeps of the objects that existed then:
    every field but the address list, and the whole object when the index
    does not hold it. *)
Definition frame_kept (h : NetLinkHandler World) (s0 s : State World) : Prop :=
  next s0 <= next s /\
  forall p, p < next s0 ->
            same_but_IpAddresses (store s0 p) (store s p) /\
            (~ held_by_index h p -> store s p = store s0 p).

(** Two elements that point to the same configuration point to an object
    of the index. *)
Definition shared_through_index (h : NetLinkHandler World)
           (d1 d2 : LinuxInterfaceDetails) : Prop :=
  forall p, Interface d1 = Some p -> Interface d2 = Some p -> held_by_index h p.

End Observations.

(* ================================================================= *)
(** ** A small kernel and index to run the code on *)

Module Fake.

(** Lower-case hexadecimal digit. *)
Definition hexDigit (n : Z) : string :=
  match n with
  | 0 => "0" | 1 => "1" | 2 => "2" | 3 => "3" | 4 => "4" | 5 => "5"
  | 6 => "6" | 7 => "7" | 8 => "8" | 9 => "9" | 10 => "a" | 11 => "b"
  | 12 => "c" | 13 => "d" | 14 => "e" | _ => "f"
  end%Z.

(** Colon-separated hexadecimal bytes. *)
Fixpoint hardwareAddrString (a : list Z) : string :=
  match a with
  | [] => ""
  | [b] => hexDigit (Z.shiftr b 4) ++ hexDigit (Z.land b 15)
  | b :: rest =>
      hexDigit (Z.shiftr b 4) ++ hexDigit (Z.land b 15) ++ ":" ++ hardwareAddrString rest
  end.

Definition operStateString (o : Z) : string :=
  match o with
  | 1 => "not-present" | 2 => "down" | 3 => "lower-layer-down"
  | 4 => "testing" | 5 => "dormant" | 6 => "up" | _ => "unknown"
  end%Z.

Definition flagsString (f : Z) : string :=
  if Z.testbit f 0 then "up" else "0".

(** Addresses are kept in their textual form, statistics as counters. *)
#[export] Instance types : NetlinkTypes := {
  Addr := string;
  LinkStatistics := list Z;
  Addr_String := fun a => a;
  OperState_String := operStateString;
  Flags_String := flagsString;
  HardwareAddr_String := hardwareAddrString
}.

(** The thread state is the name of the namespace the thread is in; the
    default namespace has the empty name. *)
Definition World := string.

(** One namespace of the kernel: its links with their addresses. *)
Definition NsTable := list (string * list (Link * list string)).

Definition link_is (n : string) (e : Link * list string) : bool :=
  match fst e with
  | Some l => match Attrs l with
              | Some a => String.eqb (la_Name a) n
              | None => false
              end
  | None => false
  end.

Definition links_in (k : NsTable) (w : World) : list (Link * list string) :=
  match find (fun e => String.eqb (fst e) w) k with
  | Some e => snd e
  | None => []
  end.

Definition netlinkOf (k : NsTable) : NetlinkAPI World := {|
  GetLinkList := fun w => (map fst (links_in k w), None);
  GetLinkByName := fun n w =>
    match find (link_is n) (links_in k w) with
    | Some e => (fst e, None)
    | None => (None, Some "Link not found")
    end;
  GetAddressList := fun n w =>
    match find (link_is n) (links_in k w) with
    | Some e => (snd e, None)
    | None => ([], Some "Link not found")
    end
|}.

(** Entering a namespace the kernel does not have fails and leaves the
    thread where it is; the revert closure goes back to where the thread
    was. *)
Definition nsHandlerOf (k : NsTable) : NamespaceAPI World := {|
  SwitchNamespace := fun ns _ w =>
    if existsb (fun e => String.eqb (fst e) (ns_Name ns)) k
    then (fun _ => w, None, ns_Name ns)
    else (fun w' => w', Some "namespace not found", w);
  IfNsToGeneric := fun ns =>
    match ns with
    | None => Namespace_zero
    | Some n => mkNamespace (ifns_Type n) (ifns_Pid n) (ifns_Microservice n)
                            (ifns_Name n) (ifns_Filepath n)
    end
|}.

(** The index as an association list; a name may be registered with [nil]
    metadata. *)
Definition Registry := list (string * option IndexedLinuxInterface).

Definition indexOf (r : Registry) : LinuxIfIndex := {|
  LookupIdx := fun n =>
    match find (fun e => String.eqb (fst e) n) r with
    | Some e => (0%Z, snd e, true)
    | None => (0%Z, None, false)
    end;
  ListNames := map fst r
|}.

Definition handler (k : NsTable) (r : Registry) : NetLinkHandler World := {|
  netlink := netlinkOf k;
  nsHandler := nsHandlerOf k;
  ifIndexes := indexOf r
|}.

(** A link with the given name, index and hardware address. *)
Definition attrs (n : string) (i : Z) (hw : option (list Z)) : LinkAttrs :=
  mkLinkAttrs i 1500 1000 n hw 1 "ether" 0 1 1 "" 6 None.

Definition linkObj (n : string) (i : Z) (hw : option (list Z)) : LinkObj :=
  mkLink (Some (attrs n i hw)).

Definition link (n : string) (i : Z) (hw : option (list Z)) : Link :=
  Some (linkObj n i hw).

(** A namespace the kernels below do not have. *)
Definition nsB : Namespace := mkNamespace 0 0 "" "ns-B" "".

Definition nsA : IfNamespace := mkIfNamespace 0 0 "" "ns-A" "".

(** The store of the configurations the index points to: address 0 holds
    the configuration of veth0 (default namespace), address 1 the one of
    veth1 (namespace ns-A); both with an address list left from earlier. *)
Definition configs (p : ptr) : LinuxInterfaces_Interface :=
  match p with
  | 0 => mkInterface "veth0" "uplink" 0 true "" None 1500 ["192.168.0.9/24"] "veth0"
  | 1 => mkInterface "veth1" "peer" 0 true "" (Some nsA) 1500 ["10.9.9.9/8"] "veth1"
  | _ => Interface_zero
  end.

Definition registry : Registry :=
  [("veth0", Some (mkIndexed 1 (Some 0))); ("veth1", Some (mkIndexed 2 (Some 1)))].

(** Default namespace: veth0 and lo; namespace ns-A: veth1. *)
Definition kernel : NsTable :=
  [("", [(link "veth0" 2 (Some [2; 66; 172; 17; 0; 2]%Z), ["192.168.0.1/24"]);
         (link "lo" 1 None, ["127.0.0.1/8"])]);
   ("ns-A", [(link "veth1" 7 (Some [10; 0; 0; 0; 0; 1]%Z), ["10.0.0.1/8"])])].

(** The same kernel with a second veth1 living in the default namespace. *)
Definition kernel_shadowed : NsTable :=
  [("", [(link "veth0" 2 (Some [2; 66; 172; 17; 0; 2]%Z), ["192.168.0.1/24"]);
         (link "veth1" 3 None, ["172.16.0.1/16"])]);
   ("ns-A", [(link "veth1" 7 (Some [10; 0; 0; 0; 0; 1]%Z), ["10.0.0.1/8"])])].

(** An index in which eth0 is registered without metadata. *)
Definition registry_nil_meta : Registry := [("eth0", None)].

Definition kernel_eth0 : NsTable :=
  [("", [(link "eth0" 2 None, ["192.168.1.1/24"]);
         (link "lo" 1 None, ["127.0.0.1/8"])])].

(** A netlink wrapper whose link listing fails. *)
Definition netlink_down : NetlinkAPI World := {|
  GetLinkList := fun _ => ([], Some "netlink: operation not permitted");
  GetLinkByName := fun _ _ => (None, Some "Link not found");
  GetAddressList := fun _ _ => ([], Some "Link not found")
|}.

Definition handler_down (k : NsTable) (r : Registry) : NetLinkHandler World := {|
  netlink := netlink_down;
  nsHandler := nsHandlerOf k;
  ifIndexes := indexOf r
|}.

(** The thread starts in the default namespace, two objects allocated. *)
Definition start : State World := mkState "" configs 2 [].

(** What a caller can look at after a dump: for each returned element the
    name and address list of the configuration it points to and the name
    and MAC address of its metadata; the error; and the thread state. *)
Definition view (r : Result World (list LinuxInterfaceDetails * option error))
  : option (list (option (string * list string) * option (string * string))
            * option error * World) :=
  match r with
  | Done (ifs, err) s =>
      Some (map (fun d =>
                   (option_map (fun p => (Name (store s p), IpAddresses (store s p)))
                               (Interface d),
                    option_map (fun m => (meta_Name m, MacAddr m)) (Meta d)))
                ifs,
            err, world s)
  | Panic _ => None
  end.

End Fake.

(* ================================================================= *)
(** ** The probe *)

Section ProbeFacts.

Context {NT : NetlinkTypes} {World : Type}.
Variable h : NetLinkHandler World.

(** The probe always returns; it leaves the world in which the revert
    closure has run, and touches nothing else.  Its answer is an error when
    the switch failed or a read failed, and the two reads otherwise. *)
Lemma dumpInterfaceData_run ifName ns ctx s revert err w1 :
  SwitchNamespace (nsHandler h) ns ctx (world s) = (revert, err, w1) ->
  exists r,
    dumpInterfaceData h ifName ns ctx s = Done r (after_probe s (revert w1)) /\
    (forall e, err = Some e ->
       r = (None, [],
            Some ("failed to switch to namespace " ++ ns_Name ns ++ ": " ++ e))) /\
    (snd r = None ->
       err = None /\
       GetLinkByName (netlink h) ifName w1 = (fst (fst r), None) /\
       GetAddressList (netlink h) ifName w1 = (snd (fst r), None)) /\
    (forall e, snd r = Some e -> fst r = (None, [])).
Proof.
  intros Hsw.
  unfold dumpInterfaceData, bind, switchNamespace, defer, bind, observe, ret.
  rewrite Hsw. cbn.
  destruct err as [e|]; cbn.
  - eexists; split; [reflexivity|].
    repeat split; try discriminate.
    intros e' He'; inversion He'; reflexivity.
  - destruct (GetLinkByName (netlink h) ifName w1) as [l [e|]] eqn:Hl; cbn.
    + eexists; split; [reflexivity|]. repeat split; try discriminate.
    + destruct (GetAddressList (netlink h) ifName w1) as [a [e|]] eqn:Ha; cbn.
      * eexists; split; [reflexivity|]. repeat split; try discriminate.
      * eexists; split; [reflexivity|]. repeat split; try discriminate.
Qed.

End ProbeFacts.

(* ================================================================= *)
(** ** The merge *)

Section MergeFacts.

Context {NT : NetlinkTypes} {World : Type}.
Variable h : NetLinkHandler World.

(** What the merge writes to the store, whatever the link is: the object
    the details point to (or a new one) gets the rendered addresses, and
    no other object is touched. *)
Lemma transformAndStore_store link addr d (s : State World) :
  let s' := final (transformAndStore link addr d s) in
  world s' = world s /\ log s' = log s /\
  match Interface d with
  | Some p =>
      next s' = next s /\
      store s' p = set_IpAddresses (store s p) (map Addr_String addr) /\
      (forall q, q <> p -> store s' q = store s q)
  | None =>
      next s' = S (next s) /\
      store s' (next s) = set_IpAddresses Interface_zero (map Addr_String addr) /\
      (forall q, q <> next s -> store s' q = store s q)
  end.
Proof.
  unfold transformAndStore, bind, alloc, store_IpAddresses, ret, panic.
  destruct (Interface d) as [p|]; cbn;
    destruct link as [[[a|]]|]; cbn;
    (split; [reflexivity|]; split; [reflexivity|]; split; [reflexivity|]; split;
     [ rewrite Nat.eqb_refl; reflexivity
     | intros q Hq; apply Nat.eqb_neq in Hq; rewrite Hq; reflexivity ]).
Qed.

(** With a link that has attributes the merge returns, and the details it
    returns point to the object written and carry the metadata of the
    link. *)
Lemma transformAndStore_Done l a addr d (s : State World) :
  Attrs l = Some a ->
  exists p m,
    transformAndStore (Some l) addr d s
    = Done (mkDetails (Some p) (Some m)) (final (transformAndStore (Some l) addr d s)) /\
    meta_reflects a m /\
    p = match Interface d with Some p0 => p0 | None => next s end.
Proof.
  intros Ha.
  unfold transformAndStore, bind, alloc, store_IpAddresses, ret, panic.
  destruct (Interface d) as [p|]; cbn; rewrite Ha; cbn;
    (eexists; eexists; split; [reflexivity|]; split; [|reflexivity]);
    unfold meta_reflects; destruct (la_HardwareAddr a); cbn;
    repeat split; reflexivity.
Qed.

(** The returning merge in one statement: the details returned, and the
    store they are returned with. *)
Lemma transformAndStore_inv l la addrs iface mt0 (s1 : State World) d s' :
  Attrs l = Some la ->
  transformAndStore (Some l) addrs (mkDetails iface mt0) s1 = Done d s' ->
  exists p m,
    d = mkDetails (Some p) (Some m) /\ meta_reflects la m /\
    world s' = world s1 /\ log s' = log s1 /\
    store s' p = set_IpAddresses
                   (match iface with Some _ => store s1 p | None => Interface_zero end)
                   (map Addr_String addrs) /\
    (forall q, q <> p -> store s' q = store s1 q) /\
    match iface with
    | Some p0 => p = p0 /\ next s' = next s1
    | None => p = next s1 /\ next s' = S (next s1)
    end.
Proof.
  intros Hla Hrun.
  destruct (transformAndStore_Done l addrs (mkDetails iface mt0) s1 Hla)
    as [p [m [Ht [Hm Hp]]]].
  pose proof (transformAndStore_store (Some l) addrs (mkDetails iface mt0) s1) as Hs.
  rewrite Hrun in Ht, Hs. cbn in Ht, Hs, Hp. inversion Ht; subst d.
  destruct Hs as [Hw [Hlog Hst]].
  exists p, m. split; [reflexivity|]. split; [exact Hm|].
  split; [exact Hw|]. split; [exact Hlog|].
  destruct iface as [p0|]; subst p; destruct Hst as [Hn [Hsp Hq]]; auto.
Qed.

(** Without a link, or without attributes, the merge panics. *)
Lemma transformAndStore_nil link addr d (s : State World) :
  match link with
  | None => True
  | Some l => Attrs l = None
  end ->
  exists s', transformAndStore link addr d s = Panic s'.
Proof.
  unfold transformAndStore, bind, alloc, store_IpAddresses, ret, panic.
  destruct link as [l|]; [intros Hl; rewrite Hl|intros _];
    destruct (Interface d); cbn; eexists; reflexivity.
Qed.

Lemma set_IpAddresses_same c ips : same_but_IpAddresses c (set_IpAddresses c ips).
Proof. unfold same_but_IpAddresses; cbn; repeat split; reflexivity. Qed.

End MergeFacts.

(* ================================================================= *)
(** ** One iteration of each loop *)

Section StepFacts.

Context {NT : NetlinkTypes} {World : Type}.
Variable h : NetLinkHandler World.

(** The probe, with the worlds named by [entered] and [reverted]. *)
Lemma dumpInterfaceData_probe ifName ns ctx (s : State World) :
  exists link addrs err,
    dumpInterfaceData h ifName ns ctx s
    = Done (link, addrs, err) (after_probe s (reverted h ns ctx (world s))) /\
    (err = None ->
       GetLinkByName (netlink h) ifName (entered h ns ctx (world s)) = (link, None) /\
       GetAddressList (netlink h) ifName (entered h ns ctx (world s)) = (addrs, None)).
Proof.
  unfold reverted, entered.
  destruct (SwitchNamespace (nsHandler h) ns ctx (world s)) as [[revert err] w1] eqn:Hsw.
  destruct (dumpInterfaceData_run h ifName ns ctx s Hsw) as [[[link addrs] e] [Hrun [_ [Hok _]]]].
  exists link, addrs, e. split; [exact Hrun|].
  intros ->. destruct (Hok eq_refl) as [_ [Hl Ha]]. split; assumption.
Qed.

Ltac run_probe ifName ns ctx s :=
  let link := fresh "link" in
  let addrs := fresh "addrs" in
  let err := fresh "err" in
  let Hrun := fresh "Hrun" in
  let Hreads := fresh "Hreads" in
  destruct (dumpInterfaceData_probe ifName ns ctx s)
    as [link [addrs [err [Hrun Hreads]]]];
  rewrite Hrun; cbn.

(** A returning iteration of the first loop either leaves the slice as it
    is (and the store with it), or appends the merge of a re-resolved link
    into the details that hold the configuration adopted from the index. *)
Lemma dumpDefaultNsLink_Done ctx ifs x (s : State World) ifs' s' :
  dumpDefaultNsLink h ctx ifs x s = Done ifs' s' ->
  (ifs' = ifs /\ store s' = store s /\ next s' = next s /\
   (world s' = world s \/ world s' = reverted h Namespace_zero ctx (world s)))
  \/
  (exists l a link la addrs iface d,
      x = Some l /\ Attrs l = Some a /\ ifs' = (ifs ++ [d])%list /\
      GetLinkByName (netlink h) (la_Name a)
                    (entered h Namespace_zero ctx (world s)) = (Some link, None) /\
      GetAddressList (netlink h) (la_Name a)
                     (entered h Namespace_zero ctx (world s)) = (addrs, None) /\
      Attrs link = Some la /\
      ((exists i mt, LookupIdx (ifIndexes h) (la_Name a) = (i, Some mt, true)
                     /\ iface = Data mt)
       \/ (exists i mt, LookupIdx (ifIndexes h) (la_Name a) = (i, mt, false)
                        /\ iface = None)) /\
      transformAndStore (Some link) addrs (mkDetails iface None)
                        (after_probe s (reverted h Namespace_zero ctx (world s)))
      = Done d s').
Proof.
  unfold dumpDefaultNsLink.
  destruct x as [l|]; [destruct (Attrs l) as [a|] eqn:Ha|];
    try solve [cbn; intros H; inversion H; subst; left; cbn; auto].
  unfold bind at 1. run_probe (la_Name a) Namespace_zero ctx s.
  destruct err as [e|]; cbn.
  - intros H; inversion H; subst; left; cbn; auto.
  - destruct (Hreads eq_refl) as [Hl Hads].
    unfold bind at 1.
    destruct (LookupIdx (ifIndexes h) (la_Name a)) as [[i mt] found] eqn:Hlk.
    destruct found; [destruct mt as [m|]|]; cbn; try discriminate.
    + unfold bind. 
      destruct link as [lk|];
        [destruct (Attrs lk) as [la|] eqn:Hla|].
      * destruct (transformAndStore_Done lk addrs (mkDetails (Data m) None)
                    (after_probe s (reverted h Namespace_zero ctx (world s))) Hla)
          as [p [mm [Ht _]]].
        rewrite Ht. cbn. intros H; inversion H; subst. right.
        exists l, a, lk, la, addrs, (Data m), (mkDetails (Some p) (Some mm)).
        repeat split; auto. left; eauto.
      * destruct (transformAndStore_nil (Some lk) addrs (mkDetails (Data m) None)
                    (after_probe s (reverted h Namespace_zero ctx (world s))) Hla)
          as [sp Hp]. rewrite Hp. discriminate.
      * destruct (transformAndStore_nil None addrs (mkDetails (Data m) None)
                    (after_probe s (reverted h Namespace_zero ctx (world s))) I)
          as [sp Hp]. rewrite Hp. discriminate.
    + unfold bind.
      destruct link as [lk|];
        [destruct (Attrs lk) as [la|] eqn:Hla|].
      * destruct (transformAndStore_Done lk addrs (mkDetails None None)
                    (after_probe s (reverted h Namespace_zero ctx (world s))) Hla)
          as [p [mm [Ht _]]].
        change Details_zero with (mkDetails None None). rewrite Ht. cbn. intros H; inversion H; subst. right.
        exists l, a, lk, la, addrs, None, (mkDetails (Some p) (Some mm)).
        repeat split; auto. right; eauto.
      * destruct (transformAndStore_nil (Some lk) addrs (mkDetails None None)
                    (after_probe s (reverted h Namespace_zero ctx (world s))) Hla)
          as [sp Hp]. change Details_zero with (mkDetails None None). rewrite Hp. discriminate.
      * destruct (transformAndStore_nil None addrs (mkDetails None None)
                    (after_probe s (reverted h Namespace_zero ctx (world s))) I)
          as [sp Hp]. change Details_zero with (mkDetails None None). rewrite Hp. discriminate.
Qed.

(** With metadata for every name found and attributes for every link
    resolved, an iteration of the first loop returns. *)
Lemma dumpDefaultNsLink_returns ctx ifs x (s : State World) :
  index_has_metadata h -> resolves_links h ->
  exists ifs' s', dumpDefaultNsLink h ctx ifs x s = Done ifs' s'.
Proof.
  intros Hmeta Hlinks. unfold dumpDefaultNsLink.
  destruct x as [l|]; [destruct (Attrs l) as [a|] eqn:Ha|];
    try solve [cbn; eexists; eexists; reflexivity].
  unfold bind at 1. run_probe (la_Name a) Namespace_zero ctx s.
  destruct err as [e|]; cbn; [eexists; eexists; reflexivity|].
  destruct (Hreads eq_refl) as [Hl _].
  destruct (Hlinks _ _ _ Hl) as [lk [la [-> Hla]]].
  unfold bind at 1.
  destruct (LookupIdx (ifIndexes h) (la_Name a)) as [[i mt] found] eqn:Hlk.
  destruct found; [destruct mt as [m|]|]; cbn.
  - unfold bind.
    destruct (transformAndStore_Done lk addrs (mkDetails (Data m) None)
                (after_probe s (reverted h Namespace_zero ctx (world s))) Hla)
      as [p [mm [Ht _]]].
    rewrite Ht. cbn. eexists; eexists; reflexivity.
  - exfalso. exact (Hmeta _ _ Hlk).
  - unfold bind.
    destruct (transformAndStore_Done lk addrs (mkDetails None None)
                (after_probe s (reverted h Namespace_zero ctx (world s))) Hla)
      as [p [mm [Ht _]]].
    change Details_zero with (mkDetails None None). rewrite Ht. cbn.
    eexists; eexists; reflexivity.
Qed.

(** An iteration of the second loop always returns.  It either leaves the
    slice and the store as they are, or appends the merge of the link found
    in the recorded namespace into the details holding the configuration of
    the index. *)
Lemma dumpKnownInterface_Done ctx ifs n (s : State World) :
  exists ifs' s',
    dumpKnownInterface h ctx ifs n s = Done ifs' s' /\
    ((ifs' = ifs /\ store s' = store s /\ next s' = next s /\
      (world s' = world s \/ exists ns, world s' = reverted h ns ctx (world s)))
     \/
     (exists i mt p nsv link la addrs d,
         LookupIdx (ifIndexes h) n = (i, Some mt, true) /\ Data mt = Some p /\
         Namespace_ (store s p) = Some nsv /\ ifs' = (ifs ++ [d])%list /\
         let ns := IfNsToGeneric (nsHandler h) (Some nsv) in
         GetLinkByName (netlink h) n (entered h ns ctx (world s)) = (Some link, None) /\
         GetAddressList (netlink h) n (entered h ns ctx (world s)) = (addrs, None) /\
         Attrs link = Some la /\
         transformAndStore (Some link) addrs (mkDetails (Some p) None)
                           (after_probe s (reverted h ns ctx (world s)))
         = Done d s')).
Proof.
  unfold dumpKnownInterface.
  destruct (LookupIdx (ifIndexes h) n) as [[i mt] found] eqn:Hlk.
  destruct found; cbn;
    [destruct mt as [m|]; [destruct (Data m) as [p|] eqn:Hd|]|];
    try solve [eexists; eexists; split; [reflexivity|]; left; cbn; auto].
  unfold bind at 1, load at 1.
  destruct (Namespace_ (store s p)) as [nsv|] eqn:Hns;
    try solve [eexists; eexists; split; [reflexivity|]; left; cbn; auto].
  unfold bind at 1.
  run_probe n (IfNsToGeneric (nsHandler h) (Some nsv)) ctx s.
  destruct err as [e|]; cbn;
    try solve [eexists; eexists; split; [reflexivity|]; left; cbn; repeat split; eauto].
  destruct (Hreads eq_refl) as [Hl Hads].
  destruct link as [lk|]; [destruct (Attrs lk) as [la|] eqn:Hla|]; cbn;
    try solve [eexists; eexists; split; [reflexivity|]; left; cbn; repeat split; eauto].
  unfold bind.
  destruct (transformAndStore_Done lk addrs (mkDetails (Some p) None)
              (after_probe s (reverted h (IfNsToGeneric (nsHandler h) (Some nsv))
                                       ctx (world s))) Hla)
    as [p' [mm [Ht _]]].
  rewrite Ht. cbn.
  eexists; eexists; split; [reflexivity|]. right.
  exists i, m, p, nsv, lk, la, addrs, (mkDetails (Some p') (Some mm)).
  cbn. repeat split; auto.
Qed.

(** An iteration of the statistics loop always returns, and only the
    thread and the log can differ afterwards. *)
Lemma dumpKnownStatistics_Done ctx ifs n (s : State World) :
  exists ifs' s',
    dumpKnownStatistics h ctx ifs n s = Done ifs' s' /\
    store s' = store s /\ next s' = next s /\
    (world s' = world s \/ exists ns, world s' = reverted h ns ctx (world s)).
Proof.
  unfold dumpKnownStatistics.
  destruct (LookupIdx (ifIndexes h) n) as [[i mt] found] eqn:Hlk.
  destruct found; cbn;
    [destruct mt as [m|]; [destruct (Data m) as [p|] eqn:Hd|]|];
    try solve [eexists; eexists; split; [reflexivity|]; cbn; auto].
  unfold bind at 1, load at 1. unfold bind at 1.
  run_probe n (IfNsToGeneric (nsHandler h) (Namespace_ (store s p))) ctx s.
  destruct err as [e|]; cbn;
    try solve [eexists; eexists; split; [reflexivity|]; cbn; repeat split; eauto].
  destruct link as [lk|]; [destruct (Attrs lk) as [la|] eqn:Hla|]; cbn;
    eexists; eexists; (split; [reflexivity|]); cbn; repeat split; eauto.
Qed.

End StepFacts.

(* ================================================================= *)
(** ** The loops *)

Section LoopFacts.

Context {NT : NetlinkTypes} {World : Type}.

(** A loop whose body returns on every input returns. *)
Lemma forRange_total {A B} (body : B -> A -> M World B) :
  (forall x acc s, exists acc1 s1, body acc x s = Done acc1 s1) ->
  forall xs acc s, exists acc' s', forRange body xs acc s = Done acc' s'.
Proof.
  intros Hbody xs; induction xs as [|x xs IH]; intros acc s; cbn.
  - eexists; eexists; reflexivity.
  - unfold bind. destruct (Hbody x acc s) as [acc1 [s1 H1]]. rewrite H1. apply IH.
Qed.

(** A property of slice and state kept by every returning iteration holds
    when the loop returns. *)
Lemma forRange_inv {A B} (body : B -> A -> M World B) (I : B -> State World -> Prop) :
  (forall x acc s acc1 s1, I acc s -> body acc x s = Done acc1 s1 -> I acc1 s1) ->
  forall xs acc s acc' s',
    I acc s -> forRange body xs acc s = Done acc' s' -> I acc' s'.
Proof.
  intros Hbody xs; induction xs as [|x xs IH]; intros acc s acc' s' Hi; cbn.
  - intros H; inversion H; subst; exact Hi.
  - unfold bind. destruct (body acc x s) as [acc1 s1|s1] eqn:H1; [|discriminate].
    apply IH. eapply Hbody; eauto.
Qed.

(** A loop whose iterations append at most one element, related by [Q] to
    the element visited, appends elements picked from the list visited. *)
Lemma forRange_picked {A D} (body : list D -> A -> M World (list D))
      (I : State World -> Prop) (Q : A -> D -> Prop) :
  (forall x acc s acc1 s1,
      I s -> body acc x s = Done acc1 s1 ->
      I s1 /\ (acc1 = acc \/ exists d, acc1 = (acc ++ [d])%list /\ Q x d)) ->
  forall xs acc s acc' s',
    I s -> forRange body xs acc s = Done acc' s' ->
    I s' /\ exists ds, acc' = (acc ++ ds)%list /\ picked Q xs ds.
Proof.
  intros Hbody xs; induction xs as [|x xs IH]; intros acc s acc' s' Hi; cbn.
  - intros H; inversion H; subst. split; [exact Hi|].
    exists []. rewrite app_nil_r. split; [reflexivity|constructor].
  - unfold bind. destruct (body acc x s) as [acc1 s1|s1] eqn:H1; [|discriminate].
    intros Hrest.
    destruct (Hbody _ _ _ _ _ Hi H1) as [Hi1 Hacc].
    destruct (IH _ _ _ _ Hi1 Hrest) as [Hi' [ds [Heq Hp]]].
    split; [exact Hi'|].
    destruct Hacc as [->|[d [-> Hq]]].
    + exists ds. split; [exact Heq|]. constructor; exact Hp.
    + exists (d :: ds). rewrite <- app_assoc in Heq. split; [exact Heq|].
      constructor; assumption.
Qed.

Lemma picked_Forall {A D} (Q : A -> D -> Prop) (P : D -> Prop) xs ds :
  picked Q xs ds -> (forall x d, In x xs -> Q x d -> P d) -> Forall P ds.
Proof.
  induction 1 as [|x xs ds Hp IH|x d xs ds Hq Hp IH]; intros HQ.
  - constructor.
  - apply IH. intros y d Hy. apply HQ. right; exact Hy.
  - constructor.
    + apply (HQ x d); [left; reflexivity|exact Hq].
    + apply IH. intros y e Hy. apply HQ. right; exact Hy.
Qed.

(** Elements picked for the links of a listing under the names of those
    links: their names are names of the listing, and as free of repetition
    as the listing. *)
Lemma picked_link_names {D} (name : D -> string) (Q : Link -> D -> Prop) links ds :
  picked Q links ds ->
  (forall x d, Q x d -> exists l a, x = Some l /\ Attrs l = Some a /\ name d = la_Name a) ->
  incl (map name ds) (link_names links) /\
  (NoDup (link_names links) -> NoDup (map name ds)).
Proof.
  intros Hp HQ.
  induction Hp as [|x xs ds Hp [IHi IHn]|x d xs ds Hq Hp [IHi IHn]]; cbn.
  - split; [intros y []|constructor].
  - destruct x as [l|]; [destruct (Attrs l) as [a|]|]; cbn.
    + split; [intros y Hy; right; apply IHi; exact Hy|].
      intros Hnd; inversion Hnd; subst; auto.
    + split; assumption.
    + split; assumption.
  - destruct (HQ _ _ Hq) as [l [a [-> [Ha Hn]]]]. rewrite Ha, Hn.
    split.
    + intros y [<-|Hy]; [left; reflexivity|right; apply IHi; exact Hy].
    + intros Hnd; inversion Hnd; subst. constructor; auto.
Qed.

(** The same for elements picked for names. *)
Lemma picked_names {D} (name : D -> string) (Q : string -> D -> Prop) ns ds :
  picked Q ns ds ->
  (forall n d, Q n d -> name d = n) ->
  incl (map name ds) ns /\ (NoDup ns -> NoDup (map name ds)).
Proof.
  intros Hp HQ.
  induction Hp as [|x xs ds Hp [IHi IHn]|x d xs ds Hq Hp [IHi IHn]]; cbn.
  - split; [intros y []|constructor].
  - split; [intros y Hy; right; apply IHi; exact Hy|].
    intros Hnd; inversion Hnd; subst; auto.
  - rewrite (HQ _ _ Hq). split.
    + intros y [<-|Hy]; [left; reflexivity|right; apply IHi; exact Hy].
    + intros Hnd; inversion Hnd; subst. constructor; auto.
Qed.

End LoopFacts.

(* ================================================================= *)
(** ** Properties of the probe and of the merge *)

Section ProbeAndMerge.

Context {NT : NetlinkTypes} {World : Type}.
Variable h : NetLinkHandler World.

Lemma reverted_obs {A} (obs : World -> A) ns ctx w :
  reverts_to_prior obs (nsHandler h) -> obs (reverted h ns ctx w) = obs w.
Proof.
  intros Hc. unfold reverted. specialize (Hc ns ctx w).
  destruct (SwitchNamespace (nsHandler h) ns ctx w) as [[revert err] w1]. exact Hc.
Qed.

Lemma dumpDefaultNsLink_keeps {A} (obs : World -> A) ctx ifs x :
  reverts_to_prior obs (nsHandler h) -> keeps obs (dumpDefaultNsLink h ctx ifs x).
Proof.
  intros Hc s ifs' s' Hrun.
  destruct (dumpDefaultNsLink_Done _ _ _ _ _ Hrun)
    as [[_ [_ [_ [Hw|Hw]]]]|[l [a [lk [la [addrs [iface [d [_ [_ [_ [_ [_ [Hla [_ Ht]]]]]]]]]]]]]]].
  - rewrite Hw; reflexivity.
  - rewrite Hw. apply reverted_obs; exact Hc.
  - destruct (transformAndStore_inv _ _ _ _ _ Hla Ht) as [p [m [_ [_ [Hw _]]]]].
    rewrite Hw. cbn. apply reverted_obs; exact Hc.
Qed.

Lemma dumpKnownInterface_keeps {A} (obs : World -> A) ctx ifs n :
  reverts_to_prior obs (nsHandler h) -> keeps obs (dumpKnownInterface h ctx ifs n).
Proof.
  intros Hc s ifs' s' Hrun.
  destruct (dumpKnownInterface_Done h ctx ifs n s) as [ifs1 [s1 [Hrun1 Hcases]]].
  rewrite Hrun in Hrun1. inversion Hrun1; subst ifs1 s1.
  destruct Hcases
    as [[_ [_ [_ [Hw|[ns Hw]]]]]|[i [mt [p [nsv [lk [la [addrs [d [_ [_ [_ [_ Hrest]]]]]]]]]]]]].
  - rewrite Hw; reflexivity.
  - rewrite Hw. apply reverted_obs; exact Hc.
  - cbv zeta in Hrest. destruct Hrest as [_ [_ [Hla Ht]]].
    destruct (transformAndStore_inv _ _ _ _ _ Hla Ht) as [p' [m [_ [_ [Hw _]]]]].
    rewrite Hw. cbn. apply reverted_obs; exact Hc.
Qed.

Lemma dumpKnownStatistics_keeps {A} (obs : World -> A) ctx ifs n :
  reverts_to_prior obs (nsHandler h) -> keeps obs (dumpKnownStatistics h ctx ifs n).
Proof.
  intros Hc s ifs' s' Hrun.
  destruct (dumpKnownStatistics_Done h ctx ifs n s) as [ifs1 [s1 [Hrun1 [_ [_ Hw]]]]].
  rewrite Hrun in Hrun1. inversion Hrun1; subst ifs1 s1.
  destruct Hw as [Hw|[ns Hw]]; rewrite Hw; [reflexivity|].
  apply reverted_obs; exact Hc.
Qed.

(** C3: every probe made by [dumpInterfaceData] returns, with or without an
    error, in the world produced by running the revert closure that the
    namespace switch handed out; when that closure restores what the switch
    changed (the observation [obs] of the thread's namespace), the thread is
    observed after the probe as it was before it, and so it is after every
    iteration of the three loops, that is, before the next interface is
    attempted. *)
Theorem dumpInterfaceData_restores_namespace {A} (obs : World -> A)
        ifName ns ctx (s : State World) :
  reverts_to_prior obs (nsHandler h) ->
  (exists link addrs err s',
      dumpInterfaceData h ifName ns ctx s = Done (link, addrs, err) s' /\
      world s' = reverted h ns ctx (world s) /\
      obs (world s') = obs (world s)) /\
  (forall ifs x, keeps obs (dumpDefaultNsLink h ctx ifs x)) /\
  (forall ifs n, keeps obs (dumpKnownInterface h ctx ifs n)) /\
  (forall ifs n, keeps obs (dumpKnownStatistics h ctx ifs n)).
Proof.
  intros Hc. split; [|split; [|split]].
  - destruct (dumpInterfaceData_probe h ifName ns ctx s)
      as [link [addrs [err [Hrun _]]]].
    exists link, addrs, err, (after_probe s (reverted h ns ctx (world s))).
    split; [exact Hrun|]. split; [reflexivity|].
    cbn. apply reverted_obs; exact Hc.
  - intros; apply dumpDefaultNsLink_keeps; exact Hc.
  - intros; apply dumpKnownInterface_keeps; exact Hc.
  - intros; apply dumpKnownStatistics_keeps; exact Hc.
Qed.

(** C4: when the namespace switch of a probe fails, [dumpInterfaceData]
    returns the switch error with no link and no addresses, whatever the
    netlink calls would have answered (they are not consulted), after
    running the revert closure; and each dump loop logs the error, leaves
    its slice as it is and goes on with the remaining interfaces from
    there. *)
Theorem switch_failure_skips_interface ifName ns ctx (s : State World) revert e w1 :
  SwitchNamespace (nsHandler h) ns ctx (world s) = (revert, Some e, w1) ->
  let msg := "failed to switch to namespace " ++ ns_Name ns ++ ": " ++ e in
  (forall nl,
      dumpInterfaceData (Build_NetLinkHandler nl (nsHandler h) (ifIndexes h))
                        ifName ns ctx s
      = Done (None, [], Some msg) (after_probe s (revert w1))) /\
  (forall l a ifs rest,
      ns = Namespace_zero -> Attrs l = Some a -> la_Name a = ifName ->
      forRange (dumpDefaultNsLink h ctx) (Some l :: rest) ifs s
      = forRange (dumpDefaultNsLink h ctx) rest ifs
                 (mkState (revert w1) (store s) (next s)
                          (log s ++ [Error_FailedToGetInterfaceData ifName msg])%list)) /\
  (forall i m p ifs rest,
      LookupIdx (ifIndexes h) ifName = (i, Some m, true) -> Data m = Some p ->
      Namespace_ (store s p) <> None ->
      ns = IfNsToGeneric (nsHandler h) (Namespace_ (store s p)) ->
      forRange (dumpKnownInterface h ctx) (ifName :: rest) ifs s
      = forRange (dumpKnownInterface h ctx) rest ifs
                 (mkState (revert w1) (store s) (next s)
                          (log s ++ [Error_FailedToGetInterfaceData ifName msg])%list)).
Proof.
  intros Hsw msg.
  assert (Hrun : forall nl,
             dumpInterfaceData (Build_NetLinkHandler nl (nsHandler h) (ifIndexes h))
                               ifName ns ctx s
             = Done (None, [], Some msg) (after_probe s (revert w1))).
  { intros nl.
    destruct (dumpInterfaceData_run
                (Build_NetLinkHandler nl (nsHandler h) (ifIndexes h))
                ifName ns ctx s Hsw) as [r [Hr [Herr _]]].
    rewrite Hr, (Herr e eq_refl). reflexivity. }
  assert (Hrun' : dumpInterfaceData h ifName ns ctx s
                  = Done (None, [], Some msg) (after_probe s (revert w1))).
  { destruct (dumpInterfaceData_run h ifName ns ctx s Hsw) as [r [Hr [Herr _]]].
    rewrite Hr, (Herr e eq_refl). reflexivity. }
  split; [exact Hrun|]. split.
  - intros l a ifs rest Hns Ha Hn. subst ns.
    cbn [forRange]. unfold bind at 1. unfold dumpDefaultNsLink at 1.
    rewrite Ha, Hn. unfold bind at 1. rewrite Hrun'. reflexivity.
  - intros i m p ifs rest Hlk Hd Hnsv Hns.
    cbn [forRange]. unfold bind at 1. unfold dumpKnownInterface at 1.
    rewrite Hlk. cbn. rewrite Hd. unfold bind at 1, load at 1.
    destruct (Namespace_ (store s p)) as [nsv|] eqn:Hp; [|congruence].
    unfold bind at 1. rewrite <- Hns, Hrun'. reflexivity.
Qed.

(** C5: the merge writes into the configuration the details end up with
    exactly the address sequence read from the kernel, each address in the
    textual form of its [String()] method; this holds whether the details
    came with a configuration of the index (whose former address list is
    replaced, the object staying the same) or without one. *)
Theorem transformAndStore_addresses l a addr d (s : State World) :
  Attrs l = Some a ->
  exists d' s' p,
    transformAndStore (Some l) addr d s = Done d' s' /\
    Interface d' = Some p /\
    IpAddresses (store s' p) = map Addr_String addr /\
    (forall p0, Interface d = Some p0 -> p = p0).
Proof.
  intros Ha.
  destruct (transformAndStore (Some l) addr d s) as [d' s'|s'] eqn:Hrun.
  - destruct d as [iface mt0].
    destruct (transformAndStore_inv _ _ _ _ _ Ha Hrun)
      as [p [m [Hd [_ [_ [_ [Hst [_ Hp]]]]]]]].
    exists d', s', p. split; [reflexivity|]. subst d'. split; [reflexivity|].
    split; [rewrite Hst; reflexivity|].
    cbn. intros p0 Hp0. subst iface. destruct Hp as [Hp _]. exact Hp.
  - destruct (transformAndStore_Done l addr d s Ha) as [p [m [Ht _]]].
    rewrite Hrun in Ht. discriminate.
Qed.

(** C7: for a link with attributes the merge returns details whose
    metadata hold the empty string as MAC address when the hardware address
    of the link is nil, and the textual form of the hardware address when
    it is not. *)
Theorem transformAndStore_mac l a addr d (s : State World) :
  Attrs l = Some a ->
  exists d' s' m,
    transformAndStore (Some l) addr d s = Done d' s' /\
    Meta d' = Some m /\
    (la_HardwareAddr a = None -> MacAddr m = "") /\
    (forall hw, la_HardwareAddr a = Some hw -> MacAddr m = HardwareAddr_String hw).
Proof.
  intros Ha.
  destruct (transformAndStore_Done l addr d s Ha) as [p [m [Ht [Hm _]]]].
  exists (mkDetails (Some p) (Some m)), (final (transformAndStore (Some l) addr d s)), m.
  split; [exact Ht|]. split; [reflexivity|].
  unfold meta_reflects in Hm.
  destruct Hm as [_ [_ [_ [_ [_ [_ [_ [_ [_ [_ [_ Hmac]]]]]]]]]]].
  split.
  - intros Hnil. rewrite Hnil in Hmac. exact Hmac.
  - intros hw Hhw. rewrite Hhw in Hmac. exact Hmac.
Qed.

(** C9: when the details handed to the merge already point to a
    configuration, the merge leaves every field of that configuration but
    the address list as it was, writes to no other object and allocates
    none, whether it returns or panics; and the details it returns point to
    the same object. *)
Theorem transformAndStore_frame link addr d (s : State World) p0 :
  Interface d = Some p0 ->
  let r := transformAndStore link addr d s in
  same_but_IpAddresses (store s p0) (store (final r) p0) /\
  (forall q, q <> p0 -> store (final r) q = store s q) /\
  next (final r) = next s /\
  (forall d' s', r = Done d' s' -> Interface d' = Some p0).
Proof.
  intros Hd r.
  pose proof (transformAndStore_store link addr d s) as Hs.
  cbn in Hs. fold r in Hs. rewrite Hd in Hs.
  destruct Hs as [_ [_ [Hn [Hp Hq]]]].
  split; [rewrite Hp; apply set_IpAddresses_same|].
  split; [exact Hq|]. split; [exact Hn|].
  intros d' s' Hr. subst r.
  destruct link as [l|]; [destruct (Attrs l) as [a|] eqn:Ha|].
  - destruct (transformAndStore_Done l addr d s Ha) as [p [m [Ht [_ Hpp]]]].
    rewrite Hr in Ht. inversion Ht. subst. cbn. rewrite Hd. reflexivity.
  - destruct (transformAndStore_nil (Some l) addr d s Ha) as [sp Hpanic].
    rewrite Hr in Hpanic. discriminate.
  - destruct (transformAndStore_nil None addr d s I) as [sp Hpanic].
    rewrite Hr in Hpanic. discriminate.
Qed.

End ProbeAndMerge.

(* ================================================================= *)
(** ** Properties of the inventory *)

Section Inventory.

Context {NT : NetlinkTypes} {World : Type}.
Variable h : NetLinkHandler World.

(** A merge into details that hold an object of the index, or none, keeps
    [populated] and adds its element. *)
Lemma merge_populated s0 acc n w lk la addrs iface (s1 : State World) d s' :
  populated h s0 acc s1 ->
  GetLinkByName (netlink h) n w = (Some lk, None) ->
  Attrs lk = Some la ->
  kernel_read h addrs ->
  (forall p0, iface = Some p0 -> held_by_index h p0) ->
  transformAndStore (Some lk) addrs (mkDetails iface None) s1 = Done d s' ->
  populated h s0 (acc ++ [d]) s'.
Proof.
  intros [Hle [Hsyn Hacc]] Hlk Hla Hk Hheld Hrun.
  destruct (transformAndStore_inv _ _ _ _ _ Hla Hrun)
    as [p [m [Hd [Hrefl [_ [_ [Hst [Hq Hp]]]]]]]].
  assert (Hnext : next s1 <= next s') by (destruct iface; destruct Hp; lia).
  split; [lia|]. split.
  - intros q Hrange.
    destruct (Nat.eq_dec q p) as [->|Hne].
    + rewrite Hst. destruct iface as [p0|].
      * destruct Hp as [-> Hn]. rewrite Hn in Hrange.
        destruct (Hsyn _ Hrange) as [addrs0 [_ Heq]]. rewrite Heq.
        exists addrs. split; [exact Hk|reflexivity].
      * exists addrs. split; [exact Hk|reflexivity].
    + rewrite (Hq _ Hne). apply Hsyn.
      destruct iface as [p0|]; destruct Hp as [Hp Hn]; subst; lia.
  - apply Forall_app. split.
    + eapply Forall_impl; [|exact Hacc].
      intros e [pe [me [He [Hme [Hrd [Hh|Hr]]]]]]; exists pe, me;
        (split; [exact He|]); (split; [exact Hme|]); (split; [exact Hrd|]);
        [left; exact Hh|right; lia].
    + constructor; [|constructor]. subst d. exists p, m.
      split; [reflexivity|]. split; [reflexivity|].
      split; [exists n, w, lk, la; auto|].
      destruct iface as [p0|]; destruct Hp as [Hp Hn].
      * left. subst p. apply Hheld. reflexivity.
      * right. lia.
Qed.

Lemma populated_same s0 acc (s s' : State World) :
  store s' = store s -> next s' = next s ->
  populated h s0 acc s -> populated h s0 acc s'.
Proof.
  intros Hst Hn [Hle [Hsyn Hacc]]. unfold populated. rewrite Hst, Hn. auto.
Qed.

Lemma dumpDefaultNsLink_populated s0 ctx x acc (s : State World) acc1 s1 :
  populated h s0 acc s ->
  dumpDefaultNsLink h ctx acc x s = Done acc1 s1 ->
  populated h s0 acc1 s1.
Proof.
  intros Hinv Hrun.
  destruct (dumpDefaultNsLink_Done _ _ _ _ _ Hrun)
    as [[-> [Hst [Hn _]]]
       |[l [a [lk [la [addrs [iface [d [_ [_ [-> [Hget [Hads [Hla [Hif Ht]]]]]]]]]]]]]]].
  - eapply populated_same; eauto.
  - eapply merge_populated; [|exact Hget|exact Hla| |  |exact Ht].
    + eapply populated_same; [| |exact Hinv]; reflexivity.
    + eexists; eexists; exact Hads.
    + intros p0 Hp0.
      destruct Hif as [[i [mt [Hlk Hd]]]|[i [mt [_ Hd]]]]; [|congruence].
      exists (la_Name a), i, mt. split; [exact Hlk|congruence].
Qed.

Lemma dumpKnownInterface_populated s0 ctx n acc (s : State World) acc1 s1 :
  populated h s0 acc s ->
  dumpKnownInterface h ctx acc n s = Done acc1 s1 ->
  populated h s0 acc1 s1.
Proof.
  intros Hinv Hrun.
  destruct (dumpKnownInterface_Done h ctx acc n s) as [acc2 [s2 [Hrun2 Hcases]]].
  rewrite Hrun in Hrun2. inversion Hrun2; subst acc2 s2.
  destruct Hcases
    as [[-> [Hst [Hn _]]]
       |[i [mt [p [nsv [lk [la [addrs [d [Hlk [Hd [_ [-> Hrest]]]]]]]]]]]]].
  - eapply populated_same; eauto.
  - cbv zeta in Hrest. destruct Hrest as [Hget [Hads [Hla Ht]]].
    eapply merge_populated; [|exact Hget|exact Hla| |  |exact Ht].
    + eapply populated_same; [| |exact Hinv]; reflexivity.
    + eexists; eexists; exact Hads.
    + intros p0 Hp0. inversion Hp0; subst p0. exists n, i, mt. auto.
Qed.

(** The two outcomes of the listing. *)
Lemma DumpInterfaces_listing_failed (s : State World) links e :
  GetLinkList (netlink h) (world s) = (links, Some e) ->
  DumpInterfaces h s
  = Done ([], Some ("failed to dump linux interfaces from default namespace: " ++ e)) s.
Proof.
  intros Hl. unfold DumpInterfaces, bind, observe. rewrite Hl. reflexivity.
Qed.

Lemma DumpInterfaces_listing_ok (s : State World) links ifs err s' :
  GetLinkList (netlink h) (world s) = (links, None) ->
  DumpInterfaces h s = Done (ifs, err) s' ->
  err = None /\
  exists ifs1 s1,
    forRange (dumpDefaultNsLink h NewNamespaceMgmtCtx) links [] s = Done ifs1 s1 /\
    forRange (dumpKnownInterface h NewNamespaceMgmtCtx) (ListNames (ifIndexes h)) ifs1 s1
    = Done ifs s'.
Proof.
  intros Hl. unfold DumpInterfaces. unfold bind at 1. unfold observe. rewrite Hl.
  unfold bind at 1.
  destruct (forRange (dumpDefaultNsLink h NewNamespaceMgmtCtx) links [] s)
    as [ifs1 s1|s1] eqn:H1; [|discriminate].
  unfold bind.
  destruct (forRange (dumpKnownInterface h NewNamespaceMgmtCtx)
                     (ListNames (ifIndexes h)) ifs1 s1)
    as [ifs2 s2|s2] eqn:H2; [|discriminate].
  cbn. intros H; inversion H; subst. split; [reflexivity|].
  exists ifs1, s1. split; [reflexivity|exact H2].
Qed.

(** X3: with metadata for every name found and attributes for every link
    resolved, [DumpInterfaces] returns: an error when the listing failed,
    an inventory otherwise. *)
Lemma DumpInterfaces_returns (s : State World) :
  index_has_metadata h -> resolves_links h ->
  exists ifs err s',
    DumpInterfaces h s = Done (ifs, err) s' /\
    (err = None <-> snd (GetLinkList (netlink h) (world s)) = None).
Proof.
  intros Hmeta Hlinks.
  destruct (GetLinkList (netlink h) (world s)) as [links [e|]] eqn:Hl.
  - rewrite (DumpInterfaces_listing_failed _ Hl).
    eexists; eexists; eexists. split; [reflexivity|]. cbn. split; discriminate.
  - unfold DumpInterfaces. unfold bind at 1. unfold observe. rewrite Hl.
    unfold bind at 1.
    destruct (forRange_total
                (dumpDefaultNsLink h NewNamespaceMgmtCtx)
                (fun x acc t => dumpDefaultNsLink_returns NewNamespaceMgmtCtx acc x t
                                  Hmeta Hlinks)
                links [] s) as [ifs1 [s1 H1]].
    rewrite H1. unfold bind.
    destruct (forRange_total
                (dumpKnownInterface h NewNamespaceMgmtCtx)
                (fun n acc t =>
                   match dumpKnownInterface_Done h NewNamespaceMgmtCtx acc n t with
                   | ex_intro _ a (ex_intro _ t' (conj Hr _)) =>
                       ex_intro _ a (ex_intro _ t' Hr)
                   end)
                (ListNames (ifIndexes h)) ifs1 s1) as [ifs2 [s2 H2]].
    rewrite H2. cbn. eexists; eexists; eexists. split; [reflexivity|].
    split; reflexivity.
Qed.

(** What the first loop appends, by the answer of the index. *)
Lemma dumpDefaultNsLink_appended ctx ifs x (s : State World) ifs' s' :
  dumpDefaultNsLink h ctx ifs x s = Done ifs' s' ->
  ifs' = ifs \/
  exists l a d p m,
    x = Some l /\ Attrs l = Some a /\ ifs' = (ifs ++ [d])%list /\
    Interface d = Some p /\ Meta d = Some m /\ read_from_kernel h m /\
    ((exists i mt,
         LookupIdx (ifIndexes h) (la_Name a) = (i, Some mt, true) /\
         Data mt = Some p)
     \/
     ((snd (LookupIdx (ifIndexes h) (la_Name a)) = false \/
       exists i mt,
         LookupIdx (ifIndexes h) (la_Name a) = (i, Some mt, true) /\
         Data mt = None) /\
      p = next s /\ next s' = S (next s) /\ synthesized h (store s' p))).
Proof.
  intros Hrun.
  destruct (dumpDefaultNsLink_Done _ _ _ _ _ Hrun)
    as [[-> _]
       |[l [a [lk [la [addrs [iface [d [Hx [Ha [-> [Hlk [Hads [Hla [Hif Ht]]]]]]]]]]]]]]];
    [left; reflexivity|right].
  destruct (transformAndStore_inv _ _ _ _ _ Hla Ht)
    as [p [m [Hd [Hm [_ [_ [Hst [_ Hp]]]]]]]].
  exists l, a, d, p, m. subst d.
  split; [exact Hx|]. split; [exact Ha|]. split; [reflexivity|].
  split; [reflexivity|]. split; [reflexivity|].
  split; [eexists; eexists; exists lk, la; eauto|].
  destruct Hif as [[i [mt [Hfound Hdata]]]|[i [mt [Hmiss Hdata]]]]; subst iface.
  - destruct (Data mt) as [p0|] eqn:Hdm.
    + left. destruct Hp as [-> _]. exists i, mt. auto.
    + right. destruct Hp as [-> Hn].
      split; [right; exists i, mt; auto|]. split; [reflexivity|].
      split; [exact Hn|].
      rewrite Hst. exists addrs. split; [|reflexivity].
      eexists; eexists; exact Hads.
  - right. destruct Hp as [-> Hn].
    split; [left; rewrite Hmiss; reflexivity|]. split; [reflexivity|].
    split; [exact Hn|].
    rewrite Hst. exists addrs. split; [|reflexivity].
    eexists; eexists; exact Hads.
Qed.

(** What the second loop appends. *)
Lemma dumpKnownInterface_appended ctx ifs n (s : State World) ifs' s' :
  dumpKnownInterface h ctx ifs n s = Done ifs' s' ->
  ifs' = ifs \/
  exists d p m i mt,
    ifs' = (ifs ++ [d])%list /\
    Interface d = Some p /\ Meta d = Some m /\ read_from_kernel h m /\
    LookupIdx (ifIndexes h) n = (i, Some mt, true) /\ Data mt = Some p.
Proof.
  intros Hrun.
  destruct (dumpKnownInterface_Done h ctx ifs n s) as [ifs2 [s2 [Hrun2 Hcases]]].
  rewrite Hrun in Hrun2. inversion Hrun2; subst ifs2 s2.
  destruct Hcases
    as [[-> _]
       |[i [mt [p [nsv [lk [la [addrs [d [Hlk [Hd [_ [-> Hrest]]]]]]]]]]]]];
    [left; reflexivity|right].
  cbv zeta in Hrest. destruct Hrest as [Hl [_ [Hla Ht]]].
  destruct (transformAndStore_inv _ _ _ _ _ Hla Ht)
    as [p' [m [Hdd [Hm [_ [_ [_ [_ [Hp _]]]]]]]]].
  subst p' d. exists (mkDetails (Some p) (Some m)), p, m, i, mt.
  split; [reflexivity|]. split; [reflexivity|]. split; [reflexivity|].
  split; [eexists; eexists; exists lk, la; eauto|]. auto.
Qed.

(** C10: every element returned by a successful [DumpInterfaces] has
    metadata, copied from a link the kernel resolved, and a configuration;
    the configuration is either an object the index holds, or an object
    created during the dump, and such an object holds the rendering of an
    address list read from the kernel and the zero value in every other
    field.  In particular the iteration for a link whose name the index
    does not know appends, if anything, details that point to the object
    allocated by that very iteration. *)
Theorem DumpInterfaces_populated (s : State World) ifs s' :
  DumpInterfaces h s = Done (ifs, None) s' ->
  Forall (fun d => exists p m,
              Interface d = Some p /\ Meta d = Some m /\ read_from_kernel h m /\
              (held_by_index h p \/ synthesized h (store s' p))) ifs /\
  (forall ctx acc l a (t : State World) acc' t',
      Attrs l = Some a ->
      snd (LookupIdx (ifIndexes h) (la_Name a)) = false ->
      dumpDefaultNsLink h ctx acc (Some l) t = Done acc' t' ->
      acc' = acc \/
      exists d m,
        acc' = (acc ++ [d])%list /\
        Interface d = Some (next t) /\ Meta d = Some m /\ read_from_kernel h m /\
        next t' = S (next t) /\ synthesized h (store t' (next t))).
Proof.
  intros Hrun. split.
  - destruct (GetLinkList (netlink h) (world s)) as [links [e|]] eqn:Hl.
    + rewrite (DumpInterfaces_listing_failed _ Hl) in Hrun. discriminate.
    + destruct (DumpInterfaces_listing_ok _ Hl Hrun) as [_ [ifs1 [s1 [H1 H2]]]].
      assert (H0 : populated h s [] s).
      { split; [lia|]. split; [intros p Hp; lia|constructor]. }
      assert (Hp1 : populated h s ifs1 s1).
      { revert H0 H1. apply forRange_inv.
        intros x acc t acc1 t1. apply dumpDefaultNsLink_populated. }
      assert (Hp2 : populated h s ifs s').
      { revert Hp1 H2. apply forRange_inv.
        intros x acc t acc1 t1. apply dumpKnownInterface_populated. }
      destruct Hp2 as [_ [Hsyn Hacc]].
      eapply Forall_impl; [|exact Hacc].
      intros d [p [m [Hd [Hm [Hrd [Hh|Hr]]]]]]; exists p, m;
        (split; [exact Hd|]); (split; [exact Hm|]); (split; [exact Hrd|]);
        [left; exact Hh|right; auto].
  - intros ctx acc l a t acc' t' Ha Hmiss Hstep.
    destruct (dumpDefaultNsLink_appended _ _ _ _ Hstep)
      as [->|[l' [a' [d [p [m [Hx [Ha' [-> [Hi [Hm [Hrd Hcfg]]]]]]]]]]]];
      [left; reflexivity|right].
    inversion Hx; subst l'. rewrite Ha in Ha'. inversion Ha'; subst a'.
    exists d, m. split; [reflexivity|].
    destruct Hcfg as [[i [mt [Hfound _]]]|[_ [-> [Hn Hsyn]]]].
    + rewrite Hfound in Hmiss. discriminate.
    + auto.
Qed.

(** C6: every iteration that appends to the inventory appends details
    with metadata, copied from the attributes of the link the probe read,
    and with a configuration.  In the first loop the configuration is the
    object the index holds for the name when the name is found with data,
    and otherwise (name not found, or found without data) an object
    created by the merge that holds the kernel-read addresses and nothing
    else; in the second loop it is always the object of the index. *)
Theorem appended_details_configuration ctx ifs :
  (forall x (s : State World) ifs' s',
      dumpDefaultNsLink h ctx ifs x s = Done ifs' s' ->
      ifs' = ifs \/
      exists l a d p m,
        x = Some l /\ Attrs l = Some a /\ ifs' = (ifs ++ [d])%list /\
        Interface d = Some p /\ Meta d = Some m /\ read_from_kernel h m /\
        ((exists i mt,
             LookupIdx (ifIndexes h) (la_Name a) = (i, Some mt, true) /\
             Data mt = Some p)
         \/
         ((snd (LookupIdx (ifIndexes h) (la_Name a)) = false \/
           exists i mt,
             LookupIdx (ifIndexes h) (la_Name a) = (i, Some mt, true) /\
             Data mt = None) /\
          p = next s /\ next s' = S (next s) /\ synthesized h (store s' p)))) /\
  (forall n (s : State World) ifs' s',
      dumpKnownInterface h ctx ifs n s = Done ifs' s' ->
      ifs' = ifs \/
      exists d p m i mt,
        ifs' = (ifs ++ [d])%list /\
        Interface d = Some p /\ Meta d = Some m /\ read_from_kernel h m /\
        LookupIdx (ifIndexes h) n = (i, Some mt, true) /\ Data mt = Some p).
Proof.
  split.
  - intros x s ifs' s'. apply dumpDefaultNsLink_appended.
  - intros n s ifs' s'. apply dumpKnownInterface_appended.
Qed.

(** The statistics loop returns from every state and leaves the store. *)
Lemma statistics_loop_total ctx names ifs (s : State World) :
  exists ifs' s',
    forRange (dumpKnownStatistics h ctx) names ifs s = Done ifs' s' /\
    store s' = store s /\ next s' = next s.
Proof.
  revert ifs s. induction names as [|n names IH]; intros ifs s; cbn.
  - exists ifs, s. auto.
  - unfold bind.
    destruct (dumpKnownStatistics_Done h ctx ifs n s) as [ifs1 [s1 [H1 [Hst [Hn _]]]]].
    rewrite H1. destruct (IH ifs1 s1) as [ifs' [s' [H' [Hst' Hn']]]].
    exists ifs', s'. split; [exact H'|]. split; congruence.
Qed.

(** C8: [DumpInterfaceStatistics] returns from every state, with a nil
    error; with no name in the index it returns the empty sequence; and an
    iteration that meets a per-interface failure (name not found, metadata
    or data missing, probe error, no link or no link attributes) returns
    the slice it was given. *)
Theorem DumpInterfaceStatistics_never_fails (s : State World) :
  (exists ifs s',
      DumpInterfaceStatistics h s = Done (ifs, None) s' /\
      (ListNames (ifIndexes h) = [] -> ifs = [] /\ s' = s)) /\
  (forall ctx ifs n t,
      statistics_failure h ctx n t ->
      exists t', dumpKnownStatistics h ctx ifs n t = Done ifs t').
Proof.
  split.
  - unfold DumpInterfaceStatistics, bind.
    destruct (statistics_loop_total NewNamespaceMgmtCtx (ListNames (ifIndexes h)) [] s)
      as [ifs [s' [Hloop _]]].
    rewrite Hloop. exists ifs, s'. split; [reflexivity|].
    intros Hnil. rewrite Hnil in Hloop. cbn in Hloop.
    inversion Hloop; subst; auto.
  - intros ctx ifs n t Hfail. unfold dumpKnownStatistics.
    destruct Hfail
      as [Hmiss|[[i Hnil]|[[i [m [Hlk Hd]]]
                          |[i [m [p [link [addrs [err [t1 [Hlk [Hd [Hrun Hbad]]]]]]]]]]]]].
    + destruct (LookupIdx (ifIndexes h) n) as [[i mt] found]. cbn in Hmiss.
      subst found. cbn. eexists; reflexivity.
    + rewrite Hnil. cbn. eexists; reflexivity.
    + rewrite Hlk. cbn. rewrite Hd. eexists; reflexivity.
    + rewrite Hlk. cbn. rewrite Hd. unfold bind at 1, load at 1.
      unfold bind at 1. rewrite Hrun.
      destruct err as [e|]; [cbn; eexists; reflexivity|].
      destruct Hbad as [Hbad|[->|[l [-> Hl]]]]; [congruence| |].
      * cbn. eexists; reflexivity.
      * rewrite Hl. cbn. eexists; reflexivity.
Qed.

(** The merge keeps the recorded namespaces. *)
Lemma merge_namespaces_kept st0 lk la addrs iface (s1 : State World) d s' :
  namespaces_kept st0 s1 ->
  Attrs lk = Some la ->
  transformAndStore (Some lk) addrs (mkDetails iface None) s1 = Done d s' ->
  namespaces_kept st0 s'.
Proof.
  intros Hk Hla Hrun q.
  destruct (transformAndStore_inv _ _ _ _ _ Hla Hrun)
    as [p [m [_ [_ [_ [_ [Hst [Hq _]]]]]]]].
  destruct (Nat.eq_dec q p) as [->|Hne].
  - rewrite Hst. destruct iface; cbn; [apply Hk|left; reflexivity].
  - rewrite (Hq _ Hne). apply Hk.
Qed.

(** An iteration of the first loop appends, if anything, details named as
    the link of the listing it was run for. *)
Lemma dumpDefaultNsLink_named st0 ctx x acc (s : State World) acc1 s1 :
  resolves_by_name h ->
  namespaces_kept st0 s ->
  dumpDefaultNsLink h ctx acc x s = Done acc1 s1 ->
  namespaces_kept st0 s1 /\
  (acc1 = acc \/
   exists d, acc1 = (acc ++ [d])%list /\
             exists l a, x = Some l /\ Attrs l = Some a /\ detail_name d = la_Name a).
Proof.
  intros Hres Hk Hrun.
  destruct (dumpDefaultNsLink_Done _ _ _ _ _ Hrun)
    as [[-> [Hst _]]
       |[l [a [lk [la [addrs [iface [d [Hx [Ha [-> [Hlk [_ [Hla [_ Ht]]]]]]]]]]]]]]].
  - split; [|left; reflexivity]. intros p. rewrite Hst. apply Hk.
  - split.
    + eapply merge_namespaces_kept; [|exact Hla|exact Ht].
      intros p. apply Hk.
    + right. exists d. split; [reflexivity|]. exists l, a.
      split; [exact Hx|]. split; [exact Ha|].
      destruct (transformAndStore_inv _ _ _ _ _ Hla Ht) as [p [m [-> [Hm _]]]].
      unfold detail_name; cbn. destruct Hm as [_ [Hname _]]. rewrite Hname.
      exact (Hres _ _ _ _ Hlk Hla).
Qed.

(** An iteration of the second loop appends, if anything, details named
    as the name it was run for, and that name was recorded with a
    namespace at the start of the dump. *)
Lemma dumpKnownInterface_named st0 ctx n acc (s : State World) acc1 s1 :
  resolves_by_name h ->
  namespaces_kept st0 s ->
  dumpKnownInterface h ctx acc n s = Done acc1 s1 ->
  namespaces_kept st0 s1 /\
  (acc1 = acc \/
   exists d, acc1 = (acc ++ [d])%list /\
             (detail_name d = n /\ nondefault_registered h st0 n)).
Proof.
  intros Hres Hk Hrun.
  destruct (dumpKnownInterface_Done h ctx acc n s) as [acc2 [s2 [Hrun2 Hcases]]].
  rewrite Hrun in Hrun2. inversion Hrun2; subst acc2 s2.
  destruct Hcases
    as [[-> [Hst _]]
       |[i [mt [p [nsv [lk [la [addrs [d [Hlk [Hd [Hns [-> Hrest]]]]]]]]]]]]].
  - split; [|left; reflexivity]. intros q. rewrite Hst. apply Hk.
  - cbv zeta in Hrest. destruct Hrest as [Hl [_ [Hla Ht]]]. split.
    + eapply merge_namespaces_kept; [|exact Hla|exact Ht].
      intros q. apply Hk.
    + right. exists d. split; [reflexivity|]. split.
      * destruct (transformAndStore_inv _ _ _ _ _ Hla Ht) as [p' [m [-> [Hm _]]]].
        unfold detail_name; cbn. destruct Hm as [_ [Hname _]]. rewrite Hname.
        exact (Hres _ _ _ _ Hl Hla).
      * exists i, mt, p. split; [exact Hlk|]. split; [exact Hd|].
        destruct (Hk p) as [Hnone|Hsame]; congruence.
Qed.

(** C1: when a link resolved by name carries the name asked for, the
    listing of the default namespace and the name listing of the index
    are free of repetition, and no name of the default listing is recorded
    in the index with a namespace, every name appears at most once in the
    inventory [DumpInterfaces] returns. *)
Theorem DumpInterfaces_names_unique (s : State World) ifs s' :
  resolves_by_name h ->
  NoDup (link_names (fst (GetLinkList (netlink h) (world s)))) ->
  NoDup (ListNames (ifIndexes h)) ->
  (forall n, In n (link_names (fst (GetLinkList (netlink h) (world s)))) ->
             ~ nondefault_registered h (store s) n) ->
  DumpInterfaces h s = Done (ifs, None) s' ->
  NoDup (map detail_name ifs).
Proof.
  intros Hres Hnd1 Hnd2 Hdisj Hrun.
  destruct (GetLinkList (netlink h) (world s)) as [links [e|]] eqn:Hl.
  - rewrite (DumpInterfaces_listing_failed _ Hl) in Hrun. discriminate.
  - cbn in Hnd1, Hdisj.
    destruct (DumpInterfaces_listing_ok _ Hl Hrun) as [_ [ifs1 [s1 [H1 H2]]]].
    assert (H0 : namespaces_kept (store s) s) by (intros p; right; reflexivity).
    assert (Hstep1 : forall x acc (t : State World) acc1 t1,
               namespaces_kept (store s) t ->
               dumpDefaultNsLink h NewNamespaceMgmtCtx acc x t = Done acc1 t1 ->
               namespaces_kept (store s) t1 /\
               (acc1 = acc \/
                exists d, acc1 = (acc ++ [d])%list /\
                          exists l a, x = Some l /\ Attrs l = Some a /\
                                      detail_name d = la_Name a)).
    { intros x acc t acc1 t1 Hk Hr. eapply dumpDefaultNsLink_named; eauto. }
    assert (Hstep2 : forall n acc (t : State World) acc1 t1,
               namespaces_kept (store s) t ->
               dumpKnownInterface h NewNamespaceMgmtCtx acc n t = Done acc1 t1 ->
               namespaces_kept (store s) t1 /\
               (acc1 = acc \/
                exists d, acc1 = (acc ++ [d])%list /\
                          (detail_name d = n /\
                           nondefault_registered h (store s) n))).
    { intros n acc t acc1 t1 Hk Hr. eapply dumpKnownInterface_named; eauto. }
    eapply forRange_picked in H1; [|exact Hstep1|exact H0].
    destruct H1 as [Hk1 [ds1 [Heq1 Hp1]]].
    eapply forRange_picked in H2; [|exact Hstep2|exact Hk1].
    destruct H2 as [_ [ds2 [Heq2 Hp2]]].
    subst ifs ifs1. cbn. rewrite map_app.
    assert (Hall : Forall (fun d => nondefault_registered h (store s) (detail_name d)) ds2).
    { eapply picked_Forall; [exact Hp2|].
      intros m d _ [Hname Hreg]. rewrite Hname. exact Hreg. }
    apply picked_link_names with (name := detail_name) in Hp1; [|auto].
    destruct Hp1 as [Hin1 Hno1].
    apply picked_names with (name := detail_name) in Hp2; [|intros n d Hq; apply Hq].
    destruct Hp2 as [Hin2 Hno2].
    apply NoDup_app; [apply Hno1; exact Hnd1|apply Hno2; exact Hnd2|].
    intros n Hn1 Hn2.
    apply (Hdisj n (Hin1 _ Hn1)).
    rewrite Forall_forall in Hall.
    apply in_map_iff in Hn2. destruct Hn2 as [d [<- Hd]]. apply Hall. exact Hd.
Qed.

End Inventory.

(* ================================================================= *)
(** ** The properties on the small kernel *)

Section FakeFacts.

Import Fake.

Lemma fake_resolves_by_name k r : resolves_by_name (handler k r).
Proof.
  intros n w l a. cbn.
  destruct (find (link_is n) (links_in k w)) as [e|] eqn:Hf; [|discriminate].
  apply find_some in Hf. destruct Hf as [_ He].
  intros Heq Ha. inversion Heq as [Hfst]. unfold link_is in He.
  rewrite Hfst, Ha in He. apply String.eqb_eq. exact He.
Qed.

Lemma fake_reverts k r : reverts_to_prior (fun w : World => w) (nsHandler (handler k r)).
Proof.
  intros ns ctx w. cbn.
  destruct (existsb (fun e => String.eqb (fst e) (ns_Name ns)) k); reflexivity.
Qed.

(** The index knows veth0 (default namespace) and veth1 (ns-A); the
    default namespace lists veth0 and lo, ns-A lists veth1.  The inventory
    has the three of them, each once, and the thread is back in the default
    namespace. *)
Example inventory_of_three :
  view (DumpInterfaces (handler kernel registry) start)
  = Some ([(Some ("veth0", ["192.168.0.1/24"]), Some ("veth0", "02:42:ac:11:00:02"));
           (Some ("", ["127.0.0.1/8"]), Some ("lo", ""));
           (Some ("veth1", ["10.0.0.1/8"]), Some ("veth1", "0a:00:00:00:00:01"))],
          None, "").
Proof. vm_compute. reflexivity. Qed.

(** With a second veth1 in the default namespace both loops report veth1,
    and both elements point to the one configuration object of the index,
    which ends with the addresses the second loop read last. *)
Example inventory_with_shared_configuration :
  view (DumpInterfaces (handler kernel_shadowed registry) start)
  = Some ([(Some ("veth0", ["192.168.0.1/24"]), Some ("veth0", "02:42:ac:11:00:02"));
           (Some ("veth1", ["10.0.0.1/8"]), Some ("veth1", ""));
           (Some ("veth1", ["10.0.0.1/8"]), Some ("veth1", "0a:00:00:00:00:01"))],
          None, "").
Proof. vm_compute. reflexivity. Qed.

(** The statistics of the same kernel: one entry per name of the index. *)
Example statistics_of_two :
  match DumpInterfaceStatistics (handler kernel registry) start with
  | Done (ifs, err) s => (map (@stat_Name _) ifs, map (@stat_Index _) ifs, err, world s)
  | Panic _ => ([], [], None, "")
  end
  = (["veth0"; "veth1"], [2; 7]%Z, None, "").
Proof. vm_compute. reflexivity. Qed.

End FakeFacts.

Lemma DumpInterfaces_names_unique_witness :
  exists ifs s',
    DumpInterfaces (Fake.handler Fake.kernel Fake.registry) Fake.start
    = Done (ifs, None) s' /\
    NoDup (map detail_name ifs).
Proof.
  eexists; eexists; split; [lazy; reflexivity|].
  eapply (@DumpInterfaces_names_unique Fake.types Fake.World
           (Fake.handler Fake.kernel Fake.registry) Fake.start).
  - apply fake_resolves_by_name.
  - cbn. repeat constructor; cbn; intuition discriminate.
  - cbn. repeat constructor; cbn; intuition discriminate.
  - cbn. intros n [<-|[<-|[]]] [i [m [p [Hlk [Hd Hns]]]]];
      cbn in Hlk; inversion Hlk; subst; cbn in Hd; inversion Hd; subst;
      cbn in Hns; congruence.
  - reflexivity.
Defined.

(** A second veth1 in the default namespace, while the index records veth1
    under ns-A: the inventory names veth1 twice. *)
Lemma DumpInterfaces_names_repeat :
  exists ifs s',
    DumpInterfaces (Fake.handler Fake.kernel_shadowed Fake.registry) Fake.start
    = Done (ifs, None) s' /\
    map detail_name ifs = ["veth0"; "veth1"; "veth1"] /\
    ~ NoDup (map detail_name ifs).
Proof.
  eexists; eexists; split; [lazy; reflexivity|].
  split; [reflexivity|].
  intros Hnd. cbn in Hnd.
  inversion Hnd as [|x1 l1 _ Hnd1]; subst.
  inversion Hnd1 as [|x2 l2 Hnotin _]; subst.
  apply Hnotin. left; reflexivity.
Qed.

(** C2: with eth0 registered in the index without metadata and listed in
    the default namespace, [DumpInterfaces] neither returns an error nor a
    result: the first loop dereferences the nil metadata and the call
    panics, although the listing succeeded and lo could be probed.  The
    statistics loop, which tests the metadata, returns on the same
    input. *)
Theorem DumpInterfaces_panics_on_nil_metadata :
  let h := Fake.handler Fake.kernel_eth0 Fake.registry_nil_meta in
  snd (GetLinkList (netlink h) (world Fake.start)) = None /\
  LookupIdx (ifIndexes h) "eth0" = (0%Z, None, true) /\
  (exists s', DumpInterfaces h Fake.start = Panic s') /\
  (exists s', DumpInterfaceStatistics h Fake.start = Done ([], None) s').
Proof.
  cbv zeta. split; [reflexivity|]. split; [reflexivity|].
  split; eexists; lazy; reflexivity.
Qed.

Lemma dumpInterfaceData_restores_namespace_witness :
  exists link addrs err s',
    dumpInterfaceData (Fake.handler Fake.kernel Fake.registry) "veth1"
                      (IfNsToGeneric (Fake.nsHandlerOf Fake.kernel) (Some Fake.nsA))
                      NewNamespaceMgmtCtx Fake.start
    = Done (link, addrs, err) s' /\
    world s' = world Fake.start.
Proof.
  destruct (@dumpInterfaceData_restores_namespace
              Fake.types Fake.World (Fake.handler Fake.kernel Fake.registry)
              Fake.World (fun w => w) "veth1"
              (IfNsToGeneric (Fake.nsHandlerOf Fake.kernel) (Some Fake.nsA))
              NewNamespaceMgmtCtx Fake.start
              (fake_reverts Fake.kernel Fake.registry))
    as [[link [addrs [err [s' [Hrun [_ Hobs]]]]]] _].
  exists link, addrs, err, s'. split; [exact Hrun|exact Hobs].
Defined.

Lemma switch_failure_skips_interface_witness :
  dumpInterfaceData
    (Build_NetLinkHandler (Fake.netlinkOf Fake.kernel)
                          (Fake.nsHandlerOf Fake.kernel)
                          (Fake.indexOf Fake.registry))
    "veth1" Fake.nsB NewNamespaceMgmtCtx Fake.start
  = Done (None, [],
          Some "failed to switch to namespace ns-B: namespace not found")
         (after_probe Fake.start "").
Proof.
  exact (proj1 (@switch_failure_skips_interface
                  Fake.types Fake.World (Fake.handler Fake.kernel Fake.registry)
                  "veth1" Fake.nsB NewNamespaceMgmtCtx Fake.start
                  (fun w => w) "namespace not found" "" eq_refl)
               (Fake.netlinkOf Fake.kernel)).
Defined.

Lemma transformAndStore_addresses_witness :
  exists d' s' p,
    transformAndStore (Some (Fake.linkObj "veth1" 7 None))
                      ["10.0.0.1/8"; "fd00::1/64"]
                      (mkDetails (Some 1) None) Fake.start
    = Done d' s' /\
    Interface d' = Some p /\
    IpAddresses (store s' p) = ["10.0.0.1/8"; "fd00::1/64"] /\
    (forall p0, Some 1 = Some p0 -> p = p0).
Proof.
  exact (@transformAndStore_addresses
           Fake.types Fake.World
           (Fake.linkObj "veth1" 7 None) (Fake.attrs "veth1" 7 None)
           ["10.0.0.1/8"; "fd00::1/64"] (mkDetails (Some 1) None) Fake.start
           eq_refl).
Defined.

Lemma transformAndStore_mac_witness :
  exists d' s' m,
    transformAndStore (Some (Fake.linkObj "lo" 1 None)) ["127.0.0.1/8"]
                      Details_zero Fake.start
    = Done d' s' /\
    Meta d' = Some m /\
    (@None (list Z) = None -> MacAddr m = "") /\
    (forall hw, None = Some hw -> MacAddr m = Fake.hardwareAddrString hw).
Proof.
  exact (@transformAndStore_mac
           Fake.types Fake.World
           (Fake.linkObj "lo" 1 None) (Fake.attrs "lo" 1 None)
           ["127.0.0.1/8"] Details_zero Fake.start eq_refl).
Defined.

Lemma transformAndStore_frame_witness :
  let r := transformAndStore (Fake.link "veth1" 7 None) ["10.0.0.1/8"]
                             (mkDetails (Some 1) None) Fake.start in
  same_but_IpAddresses (Fake.configs 1) (store (final r) 1) /\
  (forall q, q <> 1 -> store (final r) q = Fake.configs q) /\
  next (final r) = 2 /\
  (forall d' s', r = Done d' s' -> Interface d' = Some 1).
Proof.
  exact (@transformAndStore_frame
           Fake.types Fake.World (Fake.link "veth1" 7 None) ["10.0.0.1/8"]
           (mkDetails (Some 1) None) Fake.start 1 eq_refl).
Defined.

Lemma DumpInterfaces_populated_witness :
  exists ifs s',
    DumpInterfaces (Fake.handler Fake.kernel Fake.registry) Fake.start
    = Done (ifs, None) s' /\
    Forall (fun d => exists p m,
                Interface d = Some p /\ Meta d = Some m /\
                read_from_kernel (Fake.handler Fake.kernel Fake.registry) m /\
                (held_by_index (Fake.handler Fake.kernel Fake.registry) p \/
                 synthesized (Fake.handler Fake.kernel Fake.registry) (store s' p)))
           ifs.
Proof.
  eexists; eexists; split; [lazy; reflexivity|].
  apply (@DumpInterfaces_populated
           Fake.types Fake.World (Fake.handler Fake.kernel Fake.registry)
           Fake.start).
  reflexivity.
Defined.

(** lo is not known to the index, and the element reported for it has a
    configuration all the same. *)
Lemma unregistered_link_has_configuration :
  exists ifs s' d,
    DumpInterfaces (Fake.handler Fake.kernel Fake.registry) Fake.start
    = Done (ifs, None) s' /\
    In d ifs /\ detail_name d = "lo" /\
    snd (LookupIdx (ifIndexes (Fake.handler Fake.kernel Fake.registry)) "lo") = false /\
    Interface d <> None.
Proof.
  eexists; eexists; eexists. split; [lazy; reflexivity|].
  split; [right; left; reflexivity|].
  split; [reflexivity|]. split; [reflexivity|]. discriminate.
Qed.

Lemma appended_details_configuration_witness :
  exists d p s',
    dumpDefaultNsLink (Fake.handler Fake.kernel Fake.registry) NewNamespaceMgmtCtx
                      [] (Fake.link "lo" 1 None) Fake.start
    = Done [d] s' /\
    Interface d = Some p /\ p = next Fake.start.
Proof.
  pose (d0 := mkDetails (Some 2)
                        (Some (mkMeta 1 "lo" "" "up" "up" "" 1500 "ether" 0 1 1000 1))).
  pose (r := dumpDefaultNsLink (Fake.handler Fake.kernel Fake.registry)
                               NewNamespaceMgmtCtx [] (Fake.link "lo" 1 None)
                               Fake.start).
  assert (Hrun : r = Done [d0] (final r)) by (vm_compute; reflexivity).
  destruct (proj1 (@appended_details_configuration
                     Fake.types Fake.World (Fake.handler Fake.kernel Fake.registry)
                     NewNamespaceMgmtCtx [])
                  (Fake.link "lo" 1 None) Fake.start [d0] (final r) Hrun)
    as [Hsame|[l [a [d [p [m [_ [_ [Happ [Hi [_ [_ Hcfg]]]]]]]]]]]].
  - discriminate Hsame.
  - cbn in Happ. inversion Happ; subst d.
    exists d0, p, (final r). split; [exact Hrun|]. split; [exact Hi|].
    cbn in Hi. inversion Hi. reflexivity.
Defined.

Lemma DumpInterfaceStatistics_never_fails_witness :
  exists t',
    dumpKnownStatistics (Fake.handler Fake.kernel Fake.registry) NewNamespaceMgmtCtx
                        [] "tap0" Fake.start
    = Done [] t'.
Proof.
  exact (proj2 (@DumpInterfaceStatistics_never_fails
                  Fake.types Fake.World (Fake.handler Fake.kernel Fake.registry)
                  Fake.start)
               NewNamespaceMgmtCtx [] "tap0" Fake.start (or_introl eq_refl)).
Defined.

(* ================================================================= *)
(** ** Further properties of the probe and of the two dumps *)

Section ProbeOutcome.

Context {NT : NetlinkTypes} {World : Type}.
Variable h : NetLinkHandler World.

(** The probe, evaluated. *)
Lemma dumpInterfaceData_eval ifName ns ctx (s : State World) revert err w1 :
  SwitchNamespace (nsHandler h) ns ctx (world s) = (revert, err, w1) ->
  dumpInterfaceData h ifName ns ctx s
  = Done
      match err with
      | Some e =>
          (None, [], Some ("failed to switch to namespace " ++ ns_Name ns ++ ": " ++ e))
      | None =>
          match GetLinkByName (netlink h) ifName w1 with
          | (_, Some e) =>
              (None, [], Some ("failed to get interface " ++ ifName
                               ++ " from namespace " ++ ns_Name ns ++ ": " ++ e))
          | (link, None) =>
              match GetAddressList (netlink h) ifName w1 with
              | (_, Some e) =>
                  (None, [], Some ("failed to get interface " ++ ifName
                                   ++ " addresses: " ++ e))
              | (addrs, None) => (link, addrs, None)
              end
          end
      end
      (after_probe s (revert w1)).
Proof.
  intros Hsw.
  unfold dumpInterfaceData, bind, switchNamespace, defer, bind, observe, ret.
  rewrite Hsw. cbn.
  destruct err as [e|]; cbn; [reflexivity|].
  destruct (GetLinkByName (netlink h) ifName w1) as [l [e|]]; cbn; [reflexivity|].
  destruct (GetAddressList (netlink h) ifName w1) as [a [e|]]; cbn; reflexivity.
Qed.

(** A probe that meets no error answers what it read. *)
Lemma dumpInterfaceData_ok ifName ns ctx (s : State World) lk addrs :
  probe_ok h ifName ns ctx (world s) lk addrs ->
  dumpInterfaceData h ifName ns ctx s
  = Done (lk, addrs, None) (after_probe s (reverted h ns ctx (world s))).
Proof.
  unfold probe_ok, switch_error, entered, reverted.
  destruct (SwitchNamespace (nsHandler h) ns ctx (world s)) as [[revert err] w1] eqn:Hsw.
  intros [-> [Hl Ha]].
  rewrite (dumpInterfaceData_eval ifName ns ctx s Hsw), Hl, Ha. reflexivity.
Qed.

(** X1: [dumpInterfaceData] always returns, in the world the revert closure
    produced, with store, allocation mark and log untouched.  Its error is
    nil exactly when the switch and the two reads met no error, and then it
    answers the link and the addresses read in the namespace entered; with
    an error it answers no link and no addresses.  A switch error is
    reported before any read, and a failed link resolution is reported
    whatever the address listing would have answered. *)
Theorem dumpInterfaceData_outcome ifName ns ctx (s : State World) :
  exists link addrs err,
    dumpInterfaceData h ifName ns ctx s
    = Done (link, addrs, err) (after_probe s (reverted h ns ctx (world s))) /\
    (err = None -> probe_ok h ifName ns ctx (world s) link addrs) /\
    (forall lk a, probe_ok h ifName ns ctx (world s) lk a ->
                  err = None /\ link = lk /\ addrs = a) /\
    (err <> None -> link = None /\ addrs = []) /\
    (forall e, switch_error h ns ctx (world s) = Some e ->
               err = Some ("failed to switch to namespace " ++ ns_Name ns ++ ": " ++ e)) /\
    (forall l e,
        switch_error h ns ctx (world s) = None ->
        GetLinkByName (netlink h) ifName (entered h ns ctx (world s)) = (l, Some e) ->
        err = Some ("failed to get interface " ++ ifName
                    ++ " from namespace " ++ ns_Name ns ++ ": " ++ e)).
Proof.
  unfold probe_ok, switch_error, entered, reverted.
  destruct (SwitchNamespace (nsHandler h) ns ctx (world s)) as [[revert err0] w1] eqn:Hsw.
  rewrite (dumpInterfaceData_eval ifName ns ctx s Hsw).
  destruct err0 as [e0|];
    [|destruct (GetLinkByName (netlink h) ifName w1) as [l [e|]] eqn:Hl;
      [|destruct (GetAddressList (netlink h) ifName w1) as [a [e|]] eqn:Ha]];
    (eexists; eexists; eexists; split; [reflexivity|]);
    (split; [first [intros Habs; discriminate Habs | intros _; repeat split; auto]|]);
    (split; [intros lk a' [H1 [H2 H3]];
             first [discriminate H1 | discriminate H2 | discriminate H3
                   | inversion H2; inversion H3; subst; auto]|]);
    (split; [intros Habs;
             first [split; reflexivity | exfalso; apply Habs; reflexivity]|]);
    (split; [intros e' He; first [discriminate He | inversion He; reflexivity]
            |intros l' e' Hs Heq;
             first [discriminate Hs | discriminate Heq | inversion Heq; reflexivity]]).
Qed.

(** X2: a call of [DumpInterfaces] that returns answers an error exactly
    when the listing of the default namespace failed; it then answers no
    element, wraps the listing error, and has changed nothing: no namespace
    was entered, nothing was logged, no object was written. *)
Theorem DumpInterfaces_listing_error (s : State World) ifs err s' :
  DumpInterfaces h s = Done (ifs, err) s' ->
  (err = None <-> snd (GetLinkList (netlink h) (world s)) = None) /\
  (forall e,
      snd (GetLinkList (netlink h) (world s)) = Some e ->
      ifs = [] /\ s' = s /\
      err = Some ("failed to dump linux interfaces from default namespace: " ++ e)).
Proof.
  intros Hrun.
  destruct (GetLinkList (netlink h) (world s)) as [links [e|]] eqn:Hl; cbn.
  - rewrite (DumpInterfaces_listing_failed h s Hl) in Hrun. inversion Hrun; subst.
    split; [split; discriminate|].
    intros e' He'; inversion He'; subst. auto.
  - destruct (DumpInterfaces_listing_ok h s Hl Hrun) as [-> _].
    split; [split; reflexivity|]. intros e He; discriminate.
Qed.

(** X4: when the revert closure restores what the switch changed, a
    returning call of either dump leaves the thread as it found it. *)
Theorem dumps_keep_namespace {A} (obs : World -> A) :
  reverts_to_prior obs (nsHandler h) ->
  keeps obs (DumpInterfaces h) /\ keeps obs (DumpInterfaceStatistics h).
Proof.
  intros Hc. split.
  - intros s [ifs err] s' Hrun.
    destruct (GetLinkList (netlink h) (world s)) as [links [e|]] eqn:Hl.
    + rewrite (DumpInterfaces_listing_failed h s Hl) in Hrun. inversion Hrun; reflexivity.
    + destruct (DumpInterfaces_listing_ok h s Hl Hrun) as [_ [ifs1 [s1 [H1 H2]]]].
      assert (Hk1 : obs (world s1) = obs (world s)).
      { revert H1.
        apply (forRange_inv (dumpDefaultNsLink h NewNamespaceMgmtCtx)
                            (fun _ t => obs (world t) = obs (world s))).
        - intros x acc t acc1 t1 Ht Hr.
          rewrite (dumpDefaultNsLink_keeps h NewNamespaceMgmtCtx acc x Hc t Hr).
          exact Ht.
        - reflexivity. }
      revert H2.
      apply (forRange_inv (dumpKnownInterface h NewNamespaceMgmtCtx)
                          (fun _ t => obs (world t) = obs (world s))).
      * intros n acc t acc1 t1 Ht Hr.
        rewrite (dumpKnownInterface_keeps h NewNamespaceMgmtCtx acc n Hc t Hr).
        exact Ht.
      * exact Hk1.
  - intros s [ifs err] s'. unfold DumpInterfaceStatistics, bind.
    destruct (forRange (dumpKnownStatistics h NewNamespaceMgmtCtx)
                       (ListNames (ifIndexes h)) [] s) as [ifs1 s1|s1] eqn:H1;
      [|discriminate].
    cbn. intros Hrun; inversion Hrun; subst.
    revert H1.
    apply (forRange_inv (dumpKnownStatistics h NewNamespaceMgmtCtx)
                        (fun _ t => obs (world t) = obs (world s))).
    + intros n acc t acc1 t1 Ht Hr.
      rewrite (dumpKnownStatistics_keeps h NewNamespaceMgmtCtx acc n Hc t Hr).
      exact Ht.
    + reflexivity.
Qed.

End ProbeOutcome.

Section Accounting.

Context {NT : NetlinkTypes} {World : Type}.
Variable h : NetLinkHandler World.

Lemma transformAndStore_world_log link addr d (s : State World) d' s' :
  transformAndStore link addr d s = Done d' s' ->
  world s' = world s /\ log s' = log s.
Proof.
  intros Hrun. pose proof (transformAndStore_store link addr d s) as Hs.
  rewrite Hrun in Hs. cbn in Hs. destruct Hs as [Hw [Hl _]]. auto.
Qed.

(** The probe with the conditions under which its error is nil. *)
Lemma dumpInterfaceData_probe_ok ifName ns ctx (s : State World) :
  exists link addrs err,
    dumpInterfaceData h ifName ns ctx s
    = Done (link, addrs, err) (after_probe s (reverted h ns ctx (world s))) /\
    (err = None -> probe_ok h ifName ns ctx (world s) link addrs).
Proof.
  unfold probe_ok, switch_error, entered, reverted.
  destruct (SwitchNamespace (nsHandler h) ns ctx (world s)) as [[revert err0] w1] eqn:Hsw.
  rewrite (dumpInterfaceData_eval h ifName ns ctx s Hsw).
  destruct err0 as [e0|];
    [|destruct (GetLinkByName (netlink h) ifName w1) as [l [e|]] eqn:Hl;
      [|destruct (GetAddressList (netlink h) ifName w1) as [a [e|]] eqn:Ha]];
    (eexists; eexists; eexists; split; [reflexivity|]);
    first [intros Habs; discriminate Habs | intros _; repeat split; auto].
Qed.

(** Every returning iteration of the first loop either appends one element
    and logs nothing, or appends nothing and logs one event. *)
Lemma dumpDefaultNsLink_account ctx ifs x (s : State World) ifs' s' :
  dumpDefaultNsLink h ctx ifs x s = Done ifs' s' ->
  (exists d, ifs' = (ifs ++ [d])%list /\ log s' = log s) \/
  (ifs' = ifs /\ exists e, log s' = (log s ++ [e])%list).
Proof.
  unfold dumpDefaultNsLink.
  destruct x as [l|]; [destruct (Attrs l) as [a|] eqn:Ha|];
    try solve [cbn; intros H; inversion H; subst; right;
               split; [reflexivity|eexists; reflexivity]].
  unfold bind at 1.
  destruct (dumpInterfaceData_probe h (la_Name a) Namespace_zero ctx s)
    as [link [addrs [err [Hrun _]]]].
  rewrite Hrun. cbn.
  destruct err as [e|]; cbn.
  - intros H; inversion H; subst; right. split; [reflexivity|eexists; reflexivity].
  - unfold bind at 1.
    destruct (LookupIdx (ifIndexes h) (la_Name a)) as [[i mt] found].
    destruct found; [destruct mt as [m|]|]; cbn; try discriminate;
      unfold bind;
      match goal with
      | |- context [transformAndStore ?a1 ?a2 ?a3 ?a4] =>
          destruct (transformAndStore a1 a2 a3 a4) as [d t|t] eqn:Ht
      end; try discriminate; cbn; intros H; inversion H; subst; left;
      exists d; (split; [reflexivity|]);
      destruct (transformAndStore_world_log _ _ _ _ Ht) as [_ Hlog];
      rewrite Hlog; reflexivity.
Qed.

(** Every iteration of the second loop either appends one element and logs
    nothing, or appends nothing and logs one event, or, for an entry of
    the default namespace, does neither; and it keeps every recorded
    namespace. *)
Lemma dumpKnownInterface_account ctx ifs n (s : State World) ifs' s' :
  dumpKnownInterface h ctx ifs n s = Done ifs' s' ->
  ((exists d, ifs' = (ifs ++ [d])%list /\ log s' = log s) /\
   default_entry h (store s) n = false)
  \/ ((ifs' = ifs /\ exists e, log s' = (log s ++ [e])%list) /\
      default_entry h (store s) n = false)
  \/ ((ifs' = ifs /\ log s' = log s) /\ default_entry h (store s) n = true).
Proof.
  unfold dumpKnownInterface, default_entry.
  destruct (LookupIdx (ifIndexes h) n) as [[i mt] found] eqn:Hlk.
  destruct found; cbn;
    [destruct mt as [m|]; [destruct (Data m) as [p|] eqn:Hd|]|destruct mt as [m|]];
    try solve [intros H; inversion H; subst; right; left;
               split; [split; [reflexivity|eexists; reflexivity]|reflexivity]].
  unfold bind at 1, load at 1.
  destruct (Namespace_ (store s p)) as [nsv|] eqn:Hns.
  2:{ cbn. intros H; inversion H; subst. right; right. auto. }
  unfold bind at 1.
  destruct (dumpInterfaceData_probe h n (IfNsToGeneric (nsHandler h) (Some nsv)) ctx s)
    as [link [addrs [err [Hrun _]]]].
  rewrite Hrun. cbn.
  destruct err as [e|]; cbn;
    try solve [intros H; inversion H; subst; right; left;
               split; [split; [reflexivity|eexists; reflexivity]|reflexivity]].
  destruct link as [lk|]; [destruct (Attrs lk) as [la|] eqn:Hla|]; cbn;
    try solve [intros H; inversion H; subst; right; left;
               split; [split; [reflexivity|eexists; reflexivity]|reflexivity]].
  unfold bind.
  match goal with
  | |- context [transformAndStore ?a1 ?a2 ?a3 ?a4] =>
      destruct (transformAndStore a1 a2 a3 a4) as [d t|t] eqn:Ht
  end; try discriminate; cbn; intros H; inversion H; subst; left.
  split; [|reflexivity]. exists d. split; [reflexivity|].
  destruct (transformAndStore_world_log _ _ _ _ Ht) as [_ Hlog].
  rewrite Hlog; reflexivity.
Qed.

Lemma dumpKnownInterface_Namespace ctx ifs n (s : State World) ifs' s' :
  dumpKnownInterface h ctx ifs n s = Done ifs' s' ->
  forall p, Namespace_ (store s' p) = Namespace_ (store s p).
Proof.
  intros Hrun q.
  destruct (dumpKnownInterface_Done h ctx ifs n s) as [ifs2 [s2 [Hrun2 Hcases]]].
  rewrite Hrun in Hrun2. inversion Hrun2; subst ifs2 s2.
  destruct Hcases
    as [[_ [Hst _]]
       |[i [mt [p [nsv [lk [la [addrs [d [_ [_ [_ [_ Hrest]]]]]]]]]]]]].
  - rewrite Hst; reflexivity.
  - cbv zeta in Hrest. destruct Hrest as [_ [_ [Hla Ht]]].
    destruct (transformAndStore_inv _ _ _ _ _ Hla Ht)
      as [p' [m [_ [_ [_ [_ [Hst [Hq [Hp _]]]]]]]]].
    subst p'. destruct (Nat.eq_dec q p) as [->|Hne].
    + rewrite Hst. reflexivity.
    + rewrite (Hq _ Hne). reflexivity.
Qed.

Lemma default_entry_ext (st st' : ptr -> LinuxInterfaces_Interface) n :
  (forall p, Namespace_ (st' p) = Namespace_ (st p)) ->
  default_entry h st' n = default_entry h st n.
Proof.
  intros Hext. unfold default_entry.
  destruct (LookupIdx (ifIndexes h) n) as [[i [m|]] [|]]; try reflexivity.
  destruct (Data m) as [p|]; [|reflexivity]. rewrite Hext. reflexivity.
Qed.

Lemma first_loop_account ctx links ifs (s : State World) ifs' s' :
  forRange (dumpDefaultNsLink h ctx) links ifs s = Done ifs' s' ->
  List.length ifs' + List.length (log s')
  = List.length ifs + List.length (log s) + List.length links.
Proof.
  revert ifs s. induction links as [|x links IH]; intros ifs s; cbn.
  - intros H; inversion H; subst. lia.
  - unfold bind.
    destruct (dumpDefaultNsLink h ctx ifs x s) as [ifs1 s1|s1] eqn:H1; [|discriminate].
    intros Hrest. rewrite (IH _ _ Hrest).
    destruct (dumpDefaultNsLink_account _ _ _ _ H1)
      as [[d [-> Hlog]]|[-> [e Hlog]]]; rewrite Hlog, ?length_app; cbn; lia.
Qed.

Lemma second_loop_Namespace ctx names ifs (s : State World) ifs' s' :
  forRange (dumpKnownInterface h ctx) names ifs s = Done ifs' s' ->
  forall p, Namespace_ (store s' p) = Namespace_ (store s p).
Proof.
  intros Hrun. revert Hrun.
  apply (forRange_inv (dumpKnownInterface h ctx)
                      (fun _ t => forall p, Namespace_ (store t p) = Namespace_ (store s p))).
  - intros n acc t acc1 t1 Ht Hr p.
    rewrite (dumpKnownInterface_Namespace _ _ _ _ Hr). apply Ht.
  - reflexivity.
Qed.

Lemma second_loop_account ctx names ifs (s : State World) ifs' s' :
  forRange (dumpKnownInterface h ctx) names ifs s = Done ifs' s' ->
  List.length ifs' + List.length (log s')
  + List.length (filter (default_entry h (store s')) names)
  = List.length ifs + List.length (log s) + List.length names.
Proof.
  revert ifs s. induction names as [|n names IH]; intros ifs s; cbn.
  - intros H; inversion H; subst. lia.
  - unfold bind.
    destruct (dumpKnownInterface h ctx ifs n s) as [ifs1 s1|s1] eqn:H1; [|discriminate].
    intros Hrest. specialize (IH _ _ Hrest).
    assert (Hd : default_entry h (store s') n = default_entry h (store s) n).
    { apply default_entry_ext. intros p.
      rewrite (second_loop_Namespace _ _ _ _ Hrest).
      apply (dumpKnownInterface_Namespace _ _ _ _ H1). }
    rewrite Hd.
    destruct (dumpKnownInterface_account _ _ _ _ H1)
      as [[[d [-> Hlog]] Hde]|[[[-> [e Hlog]] Hde]|[[-> Hlog] Hde]]];
      rewrite Hde; rewrite Hlog, ?length_app in IH; cbn in *; lia.
Qed.

(** An iteration of the statistics loop either logs one event and leaves
    the slice, or appends the entry of the link its probe read. *)
Lemma dumpKnownStatistics_cases ctx ifs n (s : State World) :
  exists ifs' s',
    dumpKnownStatistics h ctx ifs n s = Done ifs' s' /\
    ((ifs' = ifs /\ exists e, log s' = (log s ++ [e])%list)
     \/
     (exists i m p lk la addrs,
         LookupIdx (ifIndexes h) n = (i, Some m, true) /\ Data m = Some p /\
         probe_ok h n (IfNsToGeneric (nsHandler h) (Namespace_ (store s p)))
                  ctx (world s) (Some lk) addrs /\
         Attrs lk = Some la /\
         ifs' = (ifs ++ [mkStats (la_Name la) (la_Index la) (la_Statistics la)])%list /\
         log s' = log s)).
Proof.
  unfold dumpKnownStatistics.
  destruct (LookupIdx (ifIndexes h) n) as [[i mt] found] eqn:Hlk.
  destruct found; cbn;
    [destruct mt as [m|]; [destruct (Data m) as [p|] eqn:Hd|]|];
    try solve [eexists; eexists; split; [reflexivity|]; left;
               split; [reflexivity|eexists; reflexivity]].
  unfold bind at 1, load at 1. unfold bind at 1.
  destruct (dumpInterfaceData_probe_ok n
              (IfNsToGeneric (nsHandler h) (Namespace_ (store s p))) ctx s)
    as [link [addrs [err [Hrun Hok]]]].
  rewrite Hrun. cbn.
  destruct err as [e|]; cbn;
    try solve [eexists; eexists; split; [reflexivity|]; left;
               split; [reflexivity|eexists; reflexivity]].
  destruct link as [lk|]; [destruct (Attrs lk) as [la|] eqn:Hla|]; cbn;
    try solve [eexists; eexists; split; [reflexivity|]; left;
               split; [reflexivity|eexists; reflexivity]].
  eexists; eexists; split; [reflexivity|]. right.
  exists i, m, p, lk, la, addrs.
  split; [reflexivity|]. split; [exact Hd|]. split; [exact (Hok eq_refl)|].
  split; [exact Hla|]. split; reflexivity.
Qed.

Lemma statistics_loop_account ctx names ifs (s : State World) ifs' s' :
  forRange (dumpKnownStatistics h ctx) names ifs s = Done ifs' s' ->
  List.length ifs' + List.length (log s')
  = List.length ifs + List.length (log s) + List.length names.
Proof.
  revert ifs s. induction names as [|n names IH]; intros ifs s; cbn.
  - intros H; inversion H; subst. lia.
  - unfold bind.
    destruct (dumpKnownStatistics_cases ctx ifs n s) as [ifs1 [s1 [H1 Hcases]]].
    rewrite H1. intros Hrest. rewrite (IH _ _ Hrest).
    destruct Hcases
      as [[-> [e Hlog]]|[i [m [p [lk [la [addrs [_ [_ [_ [_ [-> Hlog]]]]]]]]]]]];
      rewrite Hlog, ?length_app; cbn; lia.
Qed.

(** X6: [DumpInterfaceStatistics] returns from every state without an
    error, writes to no configuration object and allocates none, and
    accounts for every name of the index: each name gives one returned
    entry or one logged event, never both and never neither. *)
Theorem DumpInterfaceStatistics_accounts (s : State World) :
  exists ifs s',
    DumpInterfaceStatistics h s = Done (ifs, None) s' /\
    store s' = store s /\ next s' = next s /\
    List.length ifs + List.length (log s')
    = List.length (log s) + List.length (ListNames (ifIndexes h)).
Proof.
  unfold DumpInterfaceStatistics, bind.
  destruct (statistics_loop_total h NewNamespaceMgmtCtx (ListNames (ifIndexes h)) [] s)
    as [ifs [s' [Hloop [Hst Hn]]]].
  rewrite Hloop. exists ifs, s'. split; [reflexivity|].
  split; [exact Hst|]. split; [exact Hn|].
  rewrite (statistics_loop_account _ _ _ _ Hloop). cbn. lia.
Qed.

(** X7: a returning [DumpInterfaces] accounts for every link of the
    default listing and every name of the index: each one gives one
    element of the inventory or one logged event, except the names the
    index records in the default namespace, which the second loop passes
    silently. *)
Theorem DumpInterfaces_accounts (s : State World) ifs s' :
  DumpInterfaces h s = Done (ifs, None) s' ->
  List.length ifs + List.length (log s')
  + List.length (filter (default_entry h (store s')) (ListNames (ifIndexes h)))
  = List.length (log s)
    + List.length (fst (GetLinkList (netlink h) (world s)))
    + List.length (ListNames (ifIndexes h)).
Proof.
  intros Hrun.
  destruct (GetLinkList (netlink h) (world s)) as [links [e|]] eqn:Hl.
  - rewrite (DumpInterfaces_listing_failed h s Hl) in Hrun. discriminate.
  - destruct (DumpInterfaces_listing_ok h s Hl Hrun) as [_ [ifs1 [s1 [H1 H2]]]].
    pose proof (first_loop_account _ _ _ _ H1) as Ha1.
    pose proof (second_loop_account _ _ _ _ H2) as Ha2.
    cbn in *. lia.
Qed.

Lemma same_but_IpAddresses_trans c1 c2 c3 :
  same_but_IpAddresses c1 c2 -> same_but_IpAddresses c2 c3 ->
  same_but_IpAddresses c1 c3.
Proof.
  unfold same_but_IpAddresses. intuition congruence.
Qed.

Lemma same_but_IpAddresses_refl c : same_but_IpAddresses c c.
Proof. unfold same_but_IpAddresses. intuition. Qed.

Lemma frame_kept_same s0 (s s' : State World) :
  store s' = store s -> next s' = next s ->
  frame_kept h s0 s -> frame_kept h s0 s'.
Proof.
  intros Hst Hn [Hle Hp]. unfold frame_kept. rewrite Hst, Hn. auto.
Qed.

Lemma merge_frame s0 lk la addrs iface (s1 : State World) d s' :
  frame_kept h s0 s1 ->
  Attrs lk = Some la ->
  (forall p0, iface = Some p0 -> held_by_index h p0) ->
  transformAndStore (Some lk) addrs (mkDetails iface None) s1 = Done d s' ->
  frame_kept h s0 s'.
Proof.
  intros [Hle Hfr] Hla Hheld Hrun.
  destruct (transformAndStore_inv _ _ _ _ _ Hla Hrun)
    as [p [m [_ [_ [_ [_ [Hst [Hq Hp]]]]]]]].
  split; [destruct iface; destruct Hp; lia|].
  intros q Hlt. destruct (Hfr q Hlt) as [Hsame Hun].
  destruct (Nat.eq_dec q p) as [->|Hne].
  - destruct iface as [p0|]; destruct Hp as [Hp Hn].
    + subst p0. rewrite Hst. split.
      * eapply same_but_IpAddresses_trans; [exact Hsame|apply set_IpAddresses_same].
      * intros Hnot. exfalso. apply Hnot. apply Hheld. reflexivity.
    + lia.
  - rewrite (Hq _ Hne). auto.
Qed.

(** X5: of the configuration objects that exist when [DumpInterfaces] is
    called, a returning call changes nothing but address lists, and it
    leaves entirely alone the objects the index does not hold. *)
Theorem DumpInterfaces_frame (s : State World) r s' :
  DumpInterfaces h s = Done r s' -> frame_kept h s s'.
Proof.
  destruct r as [ifs err]. intros Hrun.
  assert (H0 : frame_kept h s s).
  { split; [lia|]. intros p _. split; [apply same_but_IpAddresses_refl|reflexivity]. }
  destruct (GetLinkList (netlink h) (world s)) as [links [e|]] eqn:Hl.
  - rewrite (DumpInterfaces_listing_failed h s Hl) in Hrun. inversion Hrun; subst.
    exact H0.
  - destruct (DumpInterfaces_listing_ok h s Hl Hrun) as [_ [ifs1 [s1 [H1 H2]]]].
    assert (Hf1 : frame_kept h s s1).
    { revert H0 H1.
      apply (forRange_inv (dumpDefaultNsLink h NewNamespaceMgmtCtx)
                          (fun _ t => frame_kept h s t)).
      intros x acc t acc1 t1 Hf Hr.
      destruct (dumpDefaultNsLink_Done _ _ _ _ _ Hr)
        as [[_ [Hst [Hn _]]]
           |[l [a [lk [la [addrs [iface [d [_ [_ [_ [_ [_ [Hla [Hif Ht]]]]]]]]]]]]]]].
      - eapply frame_kept_same; eauto.
      - eapply merge_frame; [|exact Hla| |exact Ht].
        + eapply frame_kept_same; [| |exact Hf]; reflexivity.
        + intros p0 Hp0.
          destruct Hif as [[i [mt [Hlk Hd]]]|[i [mt [_ Hd]]]]; [|congruence].
          exists (la_Name a), i, mt. split; [exact Hlk|congruence]. }
    revert Hf1 H2.
    apply (forRange_inv (dumpKnownInterface h NewNamespaceMgmtCtx)
                        (fun _ t => frame_kept h s t)).
    intros n acc t acc1 t1 Hf Hr.
    destruct (dumpKnownInterface_Done h NewNamespaceMgmtCtx acc n t)
      as [acc2 [t2 [Hr2 Hcases]]].
    rewrite Hr in Hr2. inversion Hr2; subst acc2 t2.
    destruct Hcases
      as [[_ [Hst [Hn _]]]
         |[i [mt [p [nsv [lk [la [addrs [d [Hlk [Hd [_ [_ Hrest]]]]]]]]]]]]].
    + eapply frame_kept_same; eauto.
    + cbv zeta in Hrest. destruct Hrest as [_ [_ [Hla Ht]]].
      eapply merge_frame; [|exact Hla| |exact Ht].
      * eapply frame_kept_same; [| |exact Hf]; reflexivity.
      * intros p0 Hp0. inversion Hp0; subst p0. exists n, i, mt. auto.
Qed.

End Accounting.

Section Ordering.

Context {NT : NetlinkTypes} {World : Type}.
Variable h : NetLinkHandler World.

Lemma picked_app {A D} (Q : A -> D -> Prop) xs ys ds es :
  picked Q xs ds -> picked Q ys es -> picked Q (xs ++ ys) (ds ++ es).
Proof.
  intros Hx Hy. induction Hx; cbn; [exact Hy| |]; constructor; assumption.
Qed.

Lemma picked_impl {A D} (Q Q' : A -> D -> Prop) xs ds :
  picked Q xs ds -> (forall x d, Q x d -> Q' x d) -> picked Q' xs ds.
Proof.
  intros Hp HQ.
  induction Hp; [apply picked_nil|apply picked_skip; auto|apply picked_take; auto].
Qed.

(** Elements picked for the links of a listing are picked for its names. *)
Lemma picked_for_link_names {D} (name : D -> string) (Q : Link -> D -> Prop) links ds :
  picked Q links ds ->
  (forall x d, Q x d -> exists l a, x = Some l /\ Attrs l = Some a /\ name d = la_Name a) ->
  picked (fun n d => name d = n) (link_names links) ds.
Proof.
  intros Hp HQ.
  induction Hp as [|x xs ds Hp IH|x d xs ds Hq Hp IH]; cbn.
  - constructor.
  - destruct x as [l|]; [destruct (Attrs l) as [a|]|]; try exact IH.
    constructor; exact IH.
  - destruct (HQ _ _ Hq) as [l [a [-> [Ha Hn]]]]. rewrite Ha.
    constructor; [exact Hn|exact IH].
Qed.

(** X8: when a link resolved by name carries the name asked for, the names
    of the inventory are taken, in order and at most once per position,
    from the names of the default listing followed by the names of the
    index: the elements of the default namespace come first, in the order
    of the listing, then those of the index, in the order of its names. *)
Theorem DumpInterfaces_order (s : State World) ifs s' :
  resolves_by_name h ->
  DumpInterfaces h s = Done (ifs, None) s' ->
  picked (fun n d => detail_name d = n)
         (link_names (fst (GetLinkList (netlink h) (world s)))
          ++ ListNames (ifIndexes h))
         ifs.
Proof.
  intros Hres Hrun.
  destruct (GetLinkList (netlink h) (world s)) as [links [e|]] eqn:Hl.
  - rewrite (DumpInterfaces_listing_failed h s Hl) in Hrun. discriminate.
  - cbn.
    destruct (DumpInterfaces_listing_ok h s Hl Hrun) as [_ [ifs1 [s1 [H1 H2]]]].
    assert (H0 : namespaces_kept (store s) s) by (intros p; right; reflexivity).
    assert (Hstep1 : forall x acc (t : State World) acc1 t1,
               namespaces_kept (store s) t ->
               dumpDefaultNsLink h NewNamespaceMgmtCtx acc x t = Done acc1 t1 ->
               namespaces_kept (store s) t1 /\
               (acc1 = acc \/
                exists d, acc1 = (acc ++ [d])%list /\
                          exists l a, x = Some l /\ Attrs l = Some a /\
                                      detail_name d = la_Name a)).
    { intros x acc t acc1 t1 Hk Hr. eapply dumpDefaultNsLink_named; eauto. }
    assert (Hstep2 : forall n acc (t : State World) acc1 t1,
               namespaces_kept (store s) t ->
               dumpKnownInterface h NewNamespaceMgmtCtx acc n t = Done acc1 t1 ->
               namespaces_kept (store s) t1 /\
               (acc1 = acc \/
                exists d, acc1 = (acc ++ [d])%list /\
                          (detail_name d = n /\
                           nondefault_registered h (store s) n))).
    { intros n acc t acc1 t1 Hk Hr. eapply dumpKnownInterface_named; eauto. }
    eapply forRange_picked in H1; [|exact Hstep1|exact H0].
    destruct H1 as [Hk1 [ds1 [Heq1 Hp1]]].
    eapply forRange_picked in H2; [|exact Hstep2|exact Hk1].
    destruct H2 as [_ [ds2 [Heq2 Hp2]]].
    subst ifs ifs1. cbn.
    apply picked_app.
    + eapply picked_for_link_names; [exact Hp1|auto].
    + eapply picked_impl; [exact Hp2|]. intros n d [Hn _]; exact Hn.
Qed.

(** X9: the entries [DumpInterfaceStatistics] returns are taken in order,
    at most one per name, from the names of the index, each the copy of
    name, index and counters of the link resolved for that name; when a
    link resolved by name carries the name asked for, the entry names are
    names of the index and repeat only if the index repeats them. *)
Theorem DumpInterfaceStatistics_entries (s : State World) ifs err s' :
  DumpInterfaceStatistics h s = Done (ifs, err) s' ->
  picked (statistics_entry_of h) (ListNames (ifIndexes h)) ifs /\
  (resolves_by_name h ->
   incl (map (@stat_Name NT) ifs) (ListNames (ifIndexes h)) /\
   (NoDup (ListNames (ifIndexes h)) -> NoDup (map (@stat_Name NT) ifs))).
Proof.
  unfold DumpInterfaceStatistics, bind.
  destruct (forRange (dumpKnownStatistics h NewNamespaceMgmtCtx)
                     (ListNames (ifIndexes h)) [] s) as [ifs1 s1|s1] eqn:H1;
    [|discriminate].
  cbn. intros Hrun; inversion Hrun; subst.
  assert (Hstep : forall n acc (t : State World) acc1 t1,
             True ->
             dumpKnownStatistics h NewNamespaceMgmtCtx acc n t = Done acc1 t1 ->
             True /\
             (acc1 = acc \/
              exists st, acc1 = (acc ++ [st])%list /\ statistics_entry_of h n st)).
  { intros n acc t acc1 t1 _ Hr. split; [exact I|].
    destruct (dumpKnownStatistics_cases h NewNamespaceMgmtCtx acc n t)
      as [acc2 [t2 [Hr2 Hcases]]].
    rewrite Hr in Hr2. inversion Hr2; subst acc2 t2.
    destruct Hcases
      as [[-> _]|[i [m [p [lk [la [addrs [Hlk [Hd [[_ [Hget _]] [Hla [-> _]]]]]]]]]]]];
      [left; reflexivity|right].
    eexists. split; [reflexivity|].
    exists i, m, p, lk, la. eexists. eauto. }
  eapply forRange_picked in H1; [|exact Hstep|exact I].
  destruct H1 as [_ [ds [Heq Hp]]]. cbn in Heq. subst ifs.
  split; [exact Hp|].
  intros Hres.
  apply picked_names with (name := @stat_Name NT) in Hp; [exact Hp|].
  intros n st [i [m [p [lk [la [w [_ [_ [Hget [Hla ->]]]]]]]]]]. cbn.
  exact (Hres _ _ _ _ Hget Hla).
Qed.

Lemma FOP_snoc {A} (R : A -> A -> Prop) l d :
  ForallOrdPairs R l -> Forall (fun x => R x d) l -> ForallOrdPairs R (l ++ [d]).
Proof.
  intros Hfop. induction Hfop as [|a l Ha Hfop IH]; cbn; intros Hall.
  - constructor; constructor.
  - inversion Hall; subst. constructor.
    + apply Forall_app. split; [exact Ha|]. constructor; [assumption|constructor].
    + apply IH. assumption.
Qed.

(** A merge keeps: every pointer of the slice is of the index or below the
    allocation mark, and two elements share a pointer only through the
    index. *)
Lemma merge_sharing acc lk la addrs iface (s1 : State World) d s' :
  Forall (fun e => forall p, Interface e = Some p ->
                             held_by_index h p \/ p < next s1) acc ->
  ForallOrdPairs (shared_through_index h) acc ->
  Attrs lk = Some la ->
  (forall p0, iface = Some p0 -> held_by_index h p0) ->
  transformAndStore (Some lk) addrs (mkDetails iface None) s1 = Done d s' ->
  Forall (fun e => forall p, Interface e = Some p ->
                             held_by_index h p \/ p < next s') (acc ++ [d]) /\
  ForallOrdPairs (shared_through_index h) (acc ++ [d]).
Proof.
  intros Hb Hfop Hla Hheld Hrun.
  destruct (transformAndStore_inv _ _ _ _ _ Hla Hrun)
    as [p [m [-> [_ [_ [_ [_ [_ Hp]]]]]]]].
  assert (Hn : next s1 <= next s') by (destruct iface; destruct Hp; lia).
  split.
  - apply Forall_app. split.
    + eapply Forall_impl; [|exact Hb]. intros e He q Hq.
      destruct (He q Hq); [left; assumption|right; lia].
    + constructor; [|constructor]. cbn. intros q Hq. inversion Hq; subst q.
      destruct iface as [p0|]; destruct Hp as [Hp Hn'].
      * left. subst p. apply Hheld. reflexivity.
      * right. lia.
  - apply FOP_snoc; [exact Hfop|].
    eapply Forall_impl; [|exact Hb]. intros e He q Hq1 Hq2.
    cbn in Hq2. inversion Hq2; subst q.
    destruct iface as [p0|]; destruct Hp as [Hp Hn'].
    + subst p. apply Hheld. reflexivity.
    + destruct (He p Hq1) as [Hh|Hlt]; [exact Hh|lia].
Qed.

(** X11: two elements of the inventory point to the same configuration
    object only if it is an object the index holds; the configurations
    created during the dump are never shared. *)
Theorem DumpInterfaces_sharing (s : State World) ifs s' :
  DumpInterfaces h s = Done (ifs, None) s' ->
  ForallOrdPairs (shared_through_index h) ifs.
Proof.
  intros Hrun.
  destruct (GetLinkList (netlink h) (world s)) as [links [e|]] eqn:Hl.
  - rewrite (DumpInterfaces_listing_failed h s Hl) in Hrun. discriminate.
  - destruct (DumpInterfaces_listing_ok h s Hl Hrun) as [_ [ifs1 [s1 [H1 H2]]]].
    pose (K := fun (acc : list LinuxInterfaceDetails) (t : State World) =>
                 Forall (fun e => forall p, Interface e = Some p ->
                                            held_by_index h p \/ p < next t) acc /\
                 ForallOrdPairs (shared_through_index h) acc).
    assert (H0 : K [] s) by (split; constructor).
    assert (Hk1 : K ifs1 s1).
    { revert H0 H1. apply (forRange_inv (dumpDefaultNsLink h NewNamespaceMgmtCtx) K).
      intros x acc t acc1 t1 [Hb Hf] Hr.
      destruct (dumpDefaultNsLink_Done _ _ _ _ _ Hr)
        as [[-> [_ [Hn _]]]
           |[l [a [lk [la [addrs [iface [d [_ [_ [-> [_ [_ [Hla [Hif Ht]]]]]]]]]]]]]]].
      - split; [|exact Hf]. rewrite Hn. exact Hb.
      - eapply merge_sharing; [| |exact Hla| |exact Ht]; [exact Hb|exact Hf|].
        intros p0 Hp0.
        destruct Hif as [[i [mt [Hlk Hd]]]|[i [mt [_ Hd]]]]; [|congruence].
        exists (la_Name a), i, mt. split; [exact Hlk|congruence]. }
    assert (Hk2 : K ifs s').
    { revert Hk1 H2. apply (forRange_inv (dumpKnownInterface h NewNamespaceMgmtCtx) K).
      intros n acc t acc1 t1 [Hb Hf] Hr.
      destruct (dumpKnownInterface_Done h NewNamespaceMgmtCtx acc n t)
        as [acc2 [t2 [Hr2 Hcases]]].
      rewrite Hr in Hr2. inversion Hr2; subst acc2 t2.
      destruct Hcases
        as [[-> [_ [Hn _]]]
           |[i [mt [p [nsv [lk [la [addrs [d [Hlk [Hd [_ [-> Hrest]]]]]]]]]]]]].
      - split; [|exact Hf]. rewrite Hn. exact Hb.
      - cbv zeta in Hrest. destruct Hrest as [_ [_ [Hla Ht]]].
        eapply merge_sharing; [| |exact Hla| |exact Ht]; [exact Hb|exact Hf|].
        intros p0 Hp0. inversion Hp0; subst p0. exists n, i, mt. auto. }
    exact (proj2 Hk2).
Qed.

End Ordering.

Section Completeness.

Context {NT : NetlinkTypes} {World : Type}.
Variable h : NetLinkHandler World.

(** X10: merging a second kernel read into details that were already
    merged gives the details, and object for object the store, that merging
    the second read alone gives: the configuration keeps nothing of the
    first read, and no further object is allocated. *)
Theorem transformAndStore_last_read_wins l1 a1 l2 a2 addr1 addr2 d
        (s : State World) d1 s1 :
  Attrs l1 = Some a1 -> Attrs l2 = Some a2 ->
  transformAndStore (Some l1) addr1 d s = Done d1 s1 ->
  exists d2 s2 s2',
    transformAndStore (Some l2) addr2 d1 s1 = Done d2 s2 /\
    transformAndStore (Some l2) addr2 d s = Done d2 s2' /\
    (forall q, store s2 q = store s2' q) /\
    next s2 = next s2' /\ world s2 = world s2' /\ log s2 = log s2'.
Proof.
  intros Ha1 Ha2.
  unfold transformAndStore, bind, alloc, store_IpAddresses, ret, panic.
  destruct d as [[p|] mt0]; cbn; rewrite Ha1, Ha2; cbn;
    intros Hrun; inversion Hrun; subst; cbn; rewrite ?Ha2; cbn;
    (eexists; eexists; eexists; split; [reflexivity|]; split; [reflexivity|]);
    cbn; (split; [|auto]); intros q;
    destruct (Nat.eqb q _) eqn:Hq; try reflexivity;
    rewrite Nat.eqb_refl; reflexivity.
Qed.

(** With the conditions of a successful probe the iteration of the
    statistics loop appends the entry. *)
Lemma dumpKnownStatistics_reports ctx ifs n (s : State World) i m p lk la addrs :
  LookupIdx (ifIndexes h) n = (i, Some m, true) -> Data m = Some p ->
  probe_ok h n (IfNsToGeneric (nsHandler h) (Namespace_ (store s p)))
           ctx (world s) (Some lk) addrs ->
  Attrs lk = Some la ->
  dumpKnownStatistics h ctx ifs n s
  = Done (ifs ++ [mkStats (la_Name la) (la_Index la) (la_Statistics la)])%list
         (after_probe s (reverted h (IfNsToGeneric (nsHandler h)
                                                   (Namespace_ (store s p)))
                                  ctx (world s))).
Proof.
  intros Hlk Hd Hok Hla. unfold dumpKnownStatistics.
  rewrite Hlk. cbn. rewrite Hd. unfold bind at 1, load at 1. unfold bind at 1.
  rewrite (dumpInterfaceData_ok s Hok). cbn. rewrite Hla. reflexivity.
Qed.

(** With the conditions of a successful probe a returning iteration of the
    first loop appends the element of the link read. *)
Lemma dumpDefaultNsLink_reports ctx ifs l a (s : State World) lk la addrs ifs' s' :
  Attrs l = Some a ->
  probe_ok h (la_Name a) Namespace_zero ctx (world s) (Some lk) addrs ->
  Attrs lk = Some la ->
  dumpDefaultNsLink h ctx ifs (Some l) s = Done ifs' s' ->
  exists d m, ifs' = (ifs ++ [d])%list /\ Meta d = Some m /\ meta_reflects la m.
Proof.
  intros Ha Hok Hla. unfold dumpDefaultNsLink. rewrite Ha.
  unfold bind at 1. rewrite (dumpInterfaceData_ok s Hok). cbn.
  unfold bind at 1.
  destruct (LookupIdx (ifIndexes h) (la_Name a)) as [[i mt] found].
  destruct found; [destruct mt as [m|]|]; cbn; try discriminate; unfold bind;
    match goal with
    | |- context [transformAndStore ?a1 ?a2 ?a3 ?a4] =>
        destruct (transformAndStore_Done lk a2 a3 a4 Hla) as [p [mm [Ht [Hm _]]]];
        rewrite Ht
    end; cbn; intros H; inversion H; subst;
    eexists; exists mm; (split; [reflexivity|]); (split; [reflexivity|exact Hm]).
Qed.

(** The same for the second loop. *)
Lemma dumpKnownInterface_reports ctx ifs n (s : State World) i mt p nsv lk la addrs ifs' s' :
  LookupIdx (ifIndexes h) n = (i, Some mt, true) -> Data mt = Some p ->
  Namespace_ (store s p) = Some nsv ->
  probe_ok h n (IfNsToGeneric (nsHandler h) (Some nsv)) ctx (world s) (Some lk) addrs ->
  Attrs lk = Some la ->
  dumpKnownInterface h ctx ifs n s = Done ifs' s' ->
  exists d m,
    ifs' = (ifs ++ [d])%list /\ Interface d = Some p /\
    Meta d = Some m /\ meta_reflects la m.
Proof.
  intros Hlk Hd Hns Hok Hla. unfold dumpKnownInterface.
  rewrite Hlk. cbn. rewrite Hd. unfold bind at 1, load at 1. rewrite Hns.
  unfold bind at 1. rewrite (dumpInterfaceData_ok s Hok). cbn.
  rewrite Hla. unfold bind.
  match goal with
  | |- context [transformAndStore ?a1 ?a2 ?a3 ?a4] =>
      destruct (transformAndStore_Done lk a2 a3 a4 Hla) as [p' [mm [Ht [Hm Hp]]]];
      rewrite Ht
  end. cbn in Hp. subst p'. cbn. intros H; inversion H; subst.
  eexists; exists mm. split; [reflexivity|]. split; [reflexivity|].
  split; [reflexivity|exact Hm].
Qed.

Lemma statistics_loop_complete ctx names acc (t : State World) acc' t' w0 st0 :
  reverts_to_prior (fun w : World => w) (nsHandler h) ->
  world t = w0 -> store t = st0 ->
  forRange (dumpKnownStatistics h ctx) names acc t = Done acc' t' ->
  incl acc acc' /\
  forall n i m p lk la addrs,
    In n names ->
    LookupIdx (ifIndexes h) n = (i, Some m, true) -> Data m = Some p ->
    probe_ok h n (IfNsToGeneric (nsHandler h) (Namespace_ (st0 p)))
             ctx w0 (Some lk) addrs ->
    Attrs lk = Some la ->
    In (mkStats (la_Name la) (la_Index la) (la_Statistics la)) acc'.
Proof.
  intros Hrev. revert acc t.
  induction names as [|n0 names IH]; intros acc t Hw Hst; cbn.
  - intros H; inversion H; subst. split; [apply incl_refl|]. intros; contradiction.
  - unfold bind.
    destruct (dumpKnownStatistics h ctx acc n0 t) as [acc1 t1|t1] eqn:H1; [|discriminate].
    intros Hrest.
    assert (Hw1 : world t1 = w0).
    { rewrite <- Hw.
      exact (dumpKnownStatistics_keeps h ctx acc n0 Hrev t H1). }
    assert (Hst1 : store t1 = st0).
    { destruct (dumpKnownStatistics_Done h ctx acc n0 t) as [a2 [t2 [Hr2 [Hs _]]]].
      rewrite H1 in Hr2. inversion Hr2; subst a2 t2. rewrite Hs. exact Hst. }
    destruct (IH acc1 t1 Hw1 Hst1 Hrest) as [Hincl Hall].
    assert (Hacc : incl acc acc1).
    { destruct (dumpKnownStatistics_cases h ctx acc n0 t) as [a2 [t2 [Hr2 Hc]]].
      rewrite H1 in Hr2. inversion Hr2; subst a2 t2.
      destruct Hc as [[-> _]|[i [m [p [lk [la [addrs [_ [_ [_ [_ [-> _]]]]]]]]]]]].
      - apply incl_refl.
      - apply incl_appl, incl_refl. }
    split; [eapply incl_tran; eauto|].
    intros n i m p lk la addrs [<-|Hin] Hlk Hd Hok Hla.
    + apply Hincl. subst w0 st0.
      rewrite (@dumpKnownStatistics_reports ctx acc n0 t _ _ _ _ _ _ Hlk Hd Hok Hla) in H1.
      inversion H1; subst. apply in_or_app. right. left. reflexivity.
    + eapply Hall; eauto.
Qed.

(** X12: when the revert closure brings the thread back to where it was,
    [DumpInterfaceStatistics] reports every name of the index that is
    found with data and whose probe, in the namespace recorded for it (the
    default one included), reads a link with attributes. *)
Theorem DumpInterfaceStatistics_complete (s : State World) ifs err s' :
  reverts_to_prior (fun w : World => w) (nsHandler h) ->
  DumpInterfaceStatistics h s = Done (ifs, err) s' ->
  forall n i m p lk la addrs,
    In n (ListNames (ifIndexes h)) ->
    LookupIdx (ifIndexes h) n = (i, Some m, true) -> Data m = Some p ->
    probe_ok h n (IfNsToGeneric (nsHandler h) (Namespace_ (store s p)))
             NewNamespaceMgmtCtx (world s) (Some lk) addrs ->
    Attrs lk = Some la ->
    In (mkStats (la_Name la) (la_Index la) (la_Statistics la)) ifs.
Proof.
  intros Hrev. unfold DumpInterfaceStatistics, bind.
  destruct (forRange (dumpKnownStatistics h NewNamespaceMgmtCtx)
                     (ListNames (ifIndexes h)) [] s) as [ifs1 s1|s1] eqn:H1;
    [|discriminate].
  cbn. intros Hrun; inversion Hrun; subst.
  exact (proj2 (statistics_loop_complete NewNamespaceMgmtCtx _ [] s Hrev
                                         eq_refl eq_refl H1)).
Qed.

Lemma first_loop_complete ctx links acc (t : State World) acc' t' w0 :
  reverts_to_prior (fun w : World => w) (nsHandler h) ->
  world t = w0 ->
  forRange (dumpDefaultNsLink h ctx) links acc t = Done acc' t' ->
  incl acc acc' /\ world t' = w0 /\
  forall l a lk la addrs,
    In (Some l) links -> Attrs l = Some a ->
    probe_ok h (la_Name a) Namespace_zero ctx w0 (Some lk) addrs ->
    Attrs lk = Some la ->
    exists d m, In d acc' /\ Meta d = Some m /\ meta_reflects la m.
Proof.
  intros Hrev. revert acc t.
  induction links as [|x links IH]; intros acc t Hw; cbn.
  - intros H; inversion H; subst t'. subst acc'.
    split; [apply incl_refl|]. split; [exact Hw|]. intros; contradiction.
  - unfold bind.
    destruct (dumpDefaultNsLink h ctx acc x t) as [acc1 t1|t1] eqn:H1; [|discriminate].
    intros Hrest.
    assert (Hw1 : world t1 = w0).
    { rewrite <- Hw. exact (dumpDefaultNsLink_keeps h ctx acc x Hrev t H1). }
    destruct (IH acc1 t1 Hw1 Hrest) as [Hincl [Hw' Hall]].
    assert (Hacc : incl acc acc1).
    { destruct (dumpDefaultNsLink_account h ctx acc x t H1) as [[d [-> _]]|[-> _]].
      - apply incl_appl, incl_refl.
      - apply incl_refl. }
    split; [eapply incl_tran; eauto|]. split; [exact Hw'|].
    intros l a lk la addrs [Hx|Hin] Ha Hok Hla.
    + subst x. rewrite <- Hw in Hok.
      destruct (@dumpDefaultNsLink_reports ctx acc l a t lk la addrs acc1 t1
                                           Ha Hok Hla H1)
        as [d [m [-> [Hm Hrefl]]]].
      exists d, m. split; [|auto].
      apply Hincl. apply in_or_app. right. left. reflexivity.
    + eapply Hall; eauto.
Qed.

Lemma second_loop_complete ctx names acc (t : State World) acc' t' w0 :
  reverts_to_prior (fun w : World => w) (nsHandler h) ->
  world t = w0 ->
  forRange (dumpKnownInterface h ctx) names acc t = Done acc' t' ->
  incl acc acc' /\
  forall n i mt p nsv lk la addrs,
    In n names ->
    LookupIdx (ifIndexes h) n = (i, Some mt, true) -> Data mt = Some p ->
    Namespace_ (store t' p) = Some nsv ->
    probe_ok h n (IfNsToGeneric (nsHandler h) (Some nsv)) ctx w0 (Some lk) addrs ->
    Attrs lk = Some la ->
    exists d m,
      In d acc' /\ Interface d = Some p /\ Meta d = Some m /\ meta_reflects la m.
Proof.
  intros Hrev. revert acc t.
  induction names as [|n0 names IH]; intros acc t Hw Hloop.
  - cbn in Hloop. inversion Hloop; subst t'. subst acc'.
    split; [apply incl_refl|]. intros; contradiction.
  - pose proof (second_loop_Namespace h ctx (n0 :: names) acc t Hloop) as Hns.
    cbn in Hloop. unfold bind in Hloop.
    destruct (dumpKnownInterface h ctx acc n0 t) as [acc1 t1|t1] eqn:H1; [|discriminate].
    assert (Hw1 : world t1 = w0).
    { rewrite <- Hw. exact (dumpKnownInterface_keeps h ctx acc n0 Hrev t H1). }
    destruct (IH acc1 t1 Hw1 Hloop) as [Hincl Hall].
    assert (Hacc : incl acc acc1).
    { destruct (dumpKnownInterface_appended h ctx acc n0 t H1)
        as [->|[d [p [m [i [mt [-> _]]]]]]].
      - apply incl_refl.
      - apply incl_appl, incl_refl. }
    split; [eapply incl_tran; eauto|].
    intros n i mt p nsv lk la addrs [Hn|Hin] Hlk Hd Hnsv Hok Hla.
    + subst n0. rewrite Hns in Hnsv. rewrite <- Hw in Hok.
      destruct (@dumpKnownInterface_reports ctx acc n t i mt p nsv lk la addrs acc1 t1
                                            Hlk Hd Hnsv Hok Hla H1)
        as [d [m [-> [Hi [Hm Hrefl]]]]].
      exists d, m. split; [|auto].
      apply Hincl. apply in_or_app. right. left. reflexivity.
    + eapply Hall; eauto.
Qed.

(** X13: when the revert closure brings the thread back to where it was, a
    returning [DumpInterfaces] reports every link of the default listing
    whose probe in the default namespace reads a link with attributes, and
    every name that the index knows with data recorded under a namespace
    and whose probe in that namespace reads a link with attributes; the
    element reported carries the metadata of the link read. *)
Theorem DumpInterfaces_complete (s : State World) ifs s' :
  reverts_to_prior (fun w : World => w) (nsHandler h) ->
  DumpInterfaces h s = Done (ifs, None) s' ->
  (forall l a lk la addrs,
      In (Some l) (fst (GetLinkList (netlink h) (world s))) -> Attrs l = Some a ->
      probe_ok h (la_Name a) Namespace_zero NewNamespaceMgmtCtx (world s)
               (Some lk) addrs ->
      Attrs lk = Some la ->
      exists d m, In d ifs /\ Meta d = Some m /\ meta_reflects la m) /\
  (forall n i mt p nsv lk la addrs,
      In n (ListNames (ifIndexes h)) ->
      LookupIdx (ifIndexes h) n = (i, Some mt, true) -> Data mt = Some p ->
      Namespace_ (store s' p) = Some nsv ->
      probe_ok h n (IfNsToGeneric (nsHandler h) (Some nsv)) NewNamespaceMgmtCtx
               (world s) (Some lk) addrs ->
      Attrs lk = Some la ->
      exists d m,
        In d ifs /\ Interface d = Some p /\ Meta d = Some m /\ meta_reflects la m).
Proof.
  intros Hrev Hrun.
  destruct (GetLinkList (netlink h) (world s)) as [links [e|]] eqn:Hl.
  - rewrite (DumpInterfaces_listing_failed h s Hl) in Hrun. discriminate.
  - cbn.
    destruct (DumpInterfaces_listing_ok h s Hl Hrun) as [_ [ifs1 [s1 [H1 H2]]]].
    destruct (first_loop_complete NewNamespaceMgmtCtx links [] s Hrev eq_refl H1)
      as [_ [Hw1 Hall1]].
    destruct (second_loop_complete NewNamespaceMgmtCtx _ ifs1 s1 Hrev Hw1 H2)
      as [Hincl Hall2].
    split.
    + intros l a lk la addrs Hin Ha Hok Hla.
      destruct (Hall1 l a lk la addrs Hin Ha Hok Hla) as [d [m [Hd Hm]]].
      exists d, m. split; [apply Hincl; exact Hd|exact Hm].
    + exact Hall2.
Qed.

End Completeness.

Section MoreFakeFacts.

Import Fake.

Lemma fake_resolves_links k r : resolves_links (handler k r).
Proof.
  intros n w l. cbn.
  destruct (find (link_is n) (links_in k w)) as [e|] eqn:Hf; [|discriminate].
  apply find_some in Hf. destruct Hf as [_ He].
  intros Heq. inversion Heq as [Hfst]. unfold link_is in He.
  destruct (fst e) as [lk|]; [|discriminate].
  destruct (Attrs lk) as [a|] eqn:Ha; [|discriminate].
  exists lk, a. auto.
Qed.

Lemma fake_registry_has_metadata k : index_has_metadata (handler k registry).
Proof.
  intros n i. cbn -[String.eqb].
  destruct (String.eqb "veth0" n); cbn -[String.eqb]; [intros H; discriminate H|].
  destruct (String.eqb "veth1" n); cbn -[String.eqb]; intros H; discriminate H.
Qed.

End MoreFakeFacts.

Lemma dumpInterfaceData_outcome_witness :
  exists link addrs err,
    dumpInterfaceData (Fake.handler Fake.kernel Fake.registry) "veth1" Fake.nsB
                      NewNamespaceMgmtCtx Fake.start
    = Done (link, addrs, err) (after_probe Fake.start "") /\
    err = Some "failed to switch to namespace ns-B: namespace not found".
Proof.
  destruct (@dumpInterfaceData_outcome
              Fake.types Fake.World (Fake.handler Fake.kernel Fake.registry)
              "veth1" Fake.nsB NewNamespaceMgmtCtx Fake.start)
    as [link [addrs [err [Hrun [_ [_ [_ [Hsw _]]]]]]]].
  exists link, addrs, err. split; [exact Hrun|].
  exact (Hsw "namespace not found" eq_refl).
Defined.

Lemma DumpInterfaces_listing_error_witness :
  (@nil LinuxInterfaceDetails) = [] /\ Fake.start = Fake.start /\
  Some ("failed to dump linux interfaces from default namespace: "
        ++ "netlink: operation not permitted")
  = Some ("failed to dump linux interfaces from default namespace: "
          ++ "netlink: operation not permitted").
Proof.
  exact (proj2 (@DumpInterfaces_listing_error
                  Fake.types Fake.World
                  (Fake.handler_down Fake.kernel Fake.registry) Fake.start
                  [] (Some ("failed to dump linux interfaces from default namespace: "
                            ++ "netlink: operation not permitted"))
                  Fake.start eq_refl)
               "netlink: operation not permitted" eq_refl).
Defined.

Lemma DumpInterfaces_returns_witness :
  exists ifs err s',
    DumpInterfaces (Fake.handler Fake.kernel_shadowed Fake.registry) Fake.start
    = Done (ifs, err) s' /\
    (err = None <-> @None error = None).
Proof.
  exact (@DumpInterfaces_returns
           Fake.types Fake.World (Fake.handler Fake.kernel_shadowed Fake.registry)
           Fake.start
           (fake_registry_has_metadata Fake.kernel_shadowed)
           (fake_resolves_links Fake.kernel_shadowed Fake.registry)).
Defined.

Lemma dumps_keep_namespace_witness :
  exists r s',
    DumpInterfaces (Fake.handler Fake.kernel Fake.registry) Fake.start = Done r s' /\
    world s' = "".
Proof.
  eexists; eexists; split; [lazy; reflexivity|].
  refine (proj1 (@dumps_keep_namespace
                   Fake.types Fake.World (Fake.handler Fake.kernel Fake.registry)
                   Fake.World (fun w => w)
                   (fake_reverts Fake.kernel Fake.registry))
                Fake.start _ _ _).
  reflexivity.
Defined.

Lemma DumpInterfaces_frame_witness :
  exists r s',
    DumpInterfaces (Fake.handler Fake.kernel Fake.registry) Fake.start = Done r s' /\
    frame_kept (Fake.handler Fake.kernel Fake.registry) Fake.start s'.
Proof.
  eexists; eexists; split; [lazy; reflexivity|].
  eapply (@DumpInterfaces_frame
            Fake.types Fake.World (Fake.handler Fake.kernel Fake.registry)
            Fake.start).
  reflexivity.
Defined.

Lemma DumpInterfaces_accounts_witness :
  exists ifs s',
    DumpInterfaces (Fake.handler Fake.kernel Fake.registry) Fake.start
    = Done (ifs, None) s' /\
    List.length ifs + List.length (log s')
    + List.length (filter (default_entry (Fake.handler Fake.kernel Fake.registry)
                                         (store s'))
                          ["veth0"; "veth1"])
    = 0 + 2 + 2.
Proof.
  eexists; eexists; split; [lazy; reflexivity|].
  refine (@DumpInterfaces_accounts
            Fake.types Fake.World (Fake.handler Fake.kernel Fake.registry)
            Fake.start _ _ _).
  reflexivity.
Defined.

Lemma DumpInterfaces_order_witness :
  exists ifs s',
    DumpInterfaces (Fake.handler Fake.kernel_shadowed Fake.registry) Fake.start
    = Done (ifs, None) s' /\
    picked (fun n d => detail_name d = n)
           (["veth0"; "veth1"] ++ ["veth0"; "veth1"]) ifs.
Proof.
  eexists; eexists; split; [lazy; reflexivity|].
  refine (@DumpInterfaces_order
            Fake.types Fake.World (Fake.handler Fake.kernel_shadowed Fake.registry)
            Fake.start _ _
            (fake_resolves_by_name Fake.kernel_shadowed Fake.registry) _).
  reflexivity.
Defined.

Lemma DumpInterfaceStatistics_entries_witness :
  exists ifs err s',
    DumpInterfaceStatistics (Fake.handler Fake.kernel Fake.registry) Fake.start
    = Done (ifs, err) s' /\
    picked (statistics_entry_of (Fake.handler Fake.kernel Fake.registry))
           ["veth0"; "veth1"] ifs.
Proof.
  eexists; eexists; eexists; split; [lazy; reflexivity|].
  refine (proj1 (@DumpInterfaceStatistics_entries
                   Fake.types Fake.World (Fake.handler Fake.kernel Fake.registry)
                   Fake.start _ _ _ _)).
  reflexivity.
Defined.

Lemma transformAndStore_last_read_wins_witness :
  exists d1 s1 d2 s2 s2',
    transformAndStore (Some (Fake.linkObj "veth1" 3 None)) ["172.16.0.1/16"]
                      (mkDetails (Some 1) None) Fake.start
    = Done d1 s1 /\
    transformAndStore (Some (Fake.linkObj "veth1" 7 None)) ["10.0.0.1/8"] d1 s1
    = Done d2 s2 /\
    transformAndStore (Some (Fake.linkObj "veth1" 7 None)) ["10.0.0.1/8"]
                      (mkDetails (Some 1) None) Fake.start
    = Done d2 s2' /\
    (forall q, store s2 q = store s2' q).
Proof.
  eexists; eexists.
  assert (Hrun : transformAndStore (Some (Fake.linkObj "veth1" 3 None))
                                   ["172.16.0.1/16"] (mkDetails (Some 1) None)
                                   Fake.start
                 = Done ?[d1] ?[s1]) by (lazy; reflexivity).
  destruct (@transformAndStore_last_read_wins
              Fake.types Fake.World
              (Fake.linkObj "veth1" 3 None) (Fake.attrs "veth1" 3 None)
              (Fake.linkObj "veth1" 7 None) (Fake.attrs "veth1" 7 None)
              ["172.16.0.1/16"] ["10.0.0.1/8"] (mkDetails (Some 1) None)
              Fake.start _ _ eq_refl eq_refl Hrun)
    as [d2 [s2 [s2' [H2 [H2' [Hst _]]]]]].
  exists d2, s2, s2'. split; [exact Hrun|]. split; [exact H2|].
  split; [exact H2'|exact Hst].
Defined.

Lemma DumpInterfaces_sharing_witness :
  exists ifs s',
    DumpInterfaces (Fake.handler Fake.kernel_shadowed Fake.registry) Fake.start
    = Done (ifs, None) s' /\
    ForallOrdPairs (shared_through_index (Fake.handler Fake.kernel_shadowed Fake.registry))
                   ifs.
Proof.
  eexists; eexists; split; [lazy; reflexivity|].
  refine (@DumpInterfaces_sharing
            Fake.types Fake.World (Fake.handler Fake.kernel_shadowed Fake.registry)
            Fake.start _ _ _).
  reflexivity.
Defined.

Lemma DumpInterfaceStatistics_complete_witness :
  exists ifs err s',
    DumpInterfaceStatistics (Fake.handler Fake.kernel Fake.registry) Fake.start
    = Done (ifs, err) s' /\
    In (mkStats "veth0" 2 None) ifs.
Proof.
  eexists; eexists; eexists; split; [lazy; reflexivity|].
  refine (@DumpInterfaceStatistics_complete
            Fake.types Fake.World (Fake.handler Fake.kernel Fake.registry)
            Fake.start _ _ _
            (fake_reverts Fake.kernel Fake.registry) _
            "veth0" 0%Z (mkIndexed 1 (Some 0)) 0
            (Fake.linkObj "veth0" 2 (Some [2; 66; 172; 17; 0; 2]%Z))
            (Fake.attrs "veth0" 2 (Some [2; 66; 172; 17; 0; 2]%Z))
            ["192.168.0.1/24"] _ eq_refl eq_refl _ eq_refl).
  - reflexivity.
  - left; reflexivity.
  - repeat split; reflexivity.
Defined.

Lemma DumpInterfaces_complete_witness :
  exists ifs s' d m,
    DumpInterfaces (Fake.handler Fake.kernel Fake.registry) Fake.start
    = Done (ifs, None) s' /\
    In d ifs /\ Meta d = Some m /\ meta_reflects (Fake.attrs "lo" 1 None) m.
Proof.
  assert (Hrun : DumpInterfaces (Fake.handler Fake.kernel Fake.registry) Fake.start
                 = Done (?[ifs], None) ?[s']) by (lazy; reflexivity).
  destruct (proj1 (@DumpInterfaces_complete
                     Fake.types Fake.World (Fake.handler Fake.kernel Fake.registry)
                     Fake.start _ _
                     (fake_reverts Fake.kernel Fake.registry) Hrun)
                  (Fake.linkObj "lo" 1 None) (Fake.attrs "lo" 1 None)
                  (Fake.linkObj "lo" 1 None) (Fake.attrs "lo" 1 None)
                  ["127.0.0.1/8"]
                  (or_intror (or_introl eq_refl)) eq_refl
                  (conj eq_refl (conj eq_refl eq_refl)) eq_refl)
    as [d [m [Hin [Hm Hrefl]]]].
  eexists; eexists; exists d, m. split; [exact Hrun|]. auto.
Defined.

Section MergeWithoutLink.

Context {NT : NetlinkTypes} {World : Type}.

(** X14: handed no link, or a link without attributes, the merge panics,
    and it does so after the address list has been written: the
    configuration the details pointed to already holds the rendered
    addresses, and when the details had none an object has been
    allocated. *)
Theorem transformAndStore_panics_after_write link addr d (s : State World) :
  match link with
  | None => True
  | Some l => Attrs l = None
  end ->
  exists s',
    transformAndStore link addr d s = Panic s' /\
    (forall p, Interface d = Some p ->
               IpAddresses (store s' p) = map Addr_String addr /\
               next s' = next s) /\
    (Interface d = None ->
     IpAddresses (store s' (next s)) = map Addr_String addr /\
     next s' = S (next s)).
Proof.
  intros Hnil.
  destruct (transformAndStore_nil link addr d s Hnil) as [s' Hpanic].
  exists s'. split; [exact Hpanic|].
  pose proof (transformAndStore_store link addr d s) as Hs.
  rewrite Hpanic in Hs. cbn in Hs. destruct Hs as [_ [_ Hst]].
  split.
  - intros p Hp. rewrite Hp in Hst. destruct Hst as [Hn [Hw _]].
    rewrite Hw. split; [reflexivity|exact Hn].
  - intros Hnone. rewrite Hnone in Hst. destruct Hst as [Hn [Hw _]].
    rewrite Hw. split; [reflexivity|exact Hn].
Qed.

End MergeWithoutLink.

Lemma transformAndStore_panics_after_write_witness :
  exists s',
    @transformAndStore Fake.types Fake.World None ["10.0.0.1/8"]
                       (mkDetails (Some 1) None) Fake.start
    = Panic s' /\
    IpAddresses (store s' 1) = ["10.0.0.1/8"].
Proof.
  destruct (@transformAndStore_panics_after_write
              Fake.types Fake.World None ["10.0.0.1/8"] (mkDetails (Some 1) None)
              Fake.start I)
    as [s' [Hpanic [Hsome _]]].
  exists s'. split; [exact Hpanic|]. exact (proj1 (Hsome 1 eq_refl)).
Defined.
